(** * Verification of [paddlenlp/trl/extras/dataset_formatting.py]

    A shallow embedding of the schema matcher
    [get_formatting_func_from_dataset] and of the three row formatters it
    hands out, followed by the properties of the module. *)

From Stdlib Require Import ZArith.
From stdpp Require Import base option list strings gmap fin_maps.

Local Open Scope string_scope.
Local Open Scope list_scope.
Set Warnings "-register-all".

(** * Python values *)

(** ** Feature types of a dataset schema

    [datasets.Value] is a dataclass compared field by field ([dtype], [id]);
    a schema may nest Python lists and dicts of features.  Python's [==] on
    these objects is structural, and on dicts it ignores insertion order, so
    it coincides with Leibniz equality on this type ([gmap] is
    extensional).  Only the feature classes that occur in [FORMAT_MAPPING]
    are modelled. *)
Inductive Feature : Type :=
  | Value (dtype : string) (id : option string)
  | FList (items : list Feature)
  | FDict (fields : gmap string Feature).

Global Instance Feature_eq_dec : EqDecision Feature.
Proof.
  refine (fix go (a b : Feature) {struct a} : Decision (a = b) :=
    let _ : EqDecision Feature := go in
    match a, b with
    | Value d1 i1, Value d2 i2 => cast_if_and (decide (d1 = d2)) (decide (i1 = i2))
    | FList l1, FList l2 => cast_if (decide (l1 = l2))
    | FDict m1, FDict m2 => cast_if (decide (m1 = m2))
    | _, _ => right _
    end); abstract congruence.
Defined.

(** ** Runtime values held by a batch of rows *)
Inductive PyVal : Type :=
  | PyNone
  | PyInt (z : Z)
  | PyStr (s : string)
  | PyList (items : list PyVal)
  | PyDict (entries : gmap string PyVal).

(** The module-level table [FORMAT_MAPPING]. *)
Definition chatml_template : Feature :=
  FList [FDict {[ "content" := Value "string" None; "role" := Value "string" None ]}].
Definition instruction_template : Feature :=
  FDict {[ "completion" := Value "string" None; "prompt" := Value "string" None ]}.
Definition paddlenlp_template : Feature :=
  FDict {[ "src" := Value "string" None; "tgt" := Value "string" None ]}.

Definition FORMAT_MAPPING : gmap string Feature :=
  {[ "chatml" := chatml_template;
     "instruction" := instruction_template;
     "paddlenlp" := paddlenlp_template ]}.


(** * Effects: exceptions and the trace of observable calls *)

Inductive PyError : Type :=
  | KeyError (key : PyVal)
  | IndexError
  | TypeError.

Inductive result (A : Type) : Type :=
  | Ok (a : A)
  | Raise (e : PyError).
Arguments Ok {A} a.
Arguments Raise {A} e.

(** What the module does to the outside world: calls of [logging.info] and
    calls of the tokenizer's [apply_chat_template], with the arguments they
    were given. *)
Inductive Event : Type :=
  | LoggingInfo (msg : string)
  | ApplyChatTemplate (conversation : PyVal) (tokenize : bool).

(** A computation yields the events it performed, in order, and either a
    value or the exception that stopped it. *)
Definition M (A : Type) : Type := (list Event * result A)%type.

Definition events {A} (m : M A) : list Event := m.1.
Definition outcome {A} (m : M A) : result A := m.2.

Global Instance M_ret : MRet M := λ A a, ([], Ok a).
Global Instance M_bind : MBind M := λ A B f m,
  match m.2 with
  | Ok a => (m.1 ++ (f a).1, (f a).2)
  | Raise e => (m.1, Raise e)
  end.

Definition lift {A} (r : result A) : M A := ([], r).
Definition emit (e : Event) : M () := ([e], Ok ()).

(** The tokenizer is an external collaborator; only its
    [apply_chat_template(conversation, tokenize=...)] method is used. *)
Record AutoTokenizer : Type := {
  apply_chat_template : PyVal → bool → PyVal
}.

Definition call_apply_chat_template
    (tokenizer : AutoTokenizer) (conversation : PyVal) (tokenize : bool) : M PyVal :=
  ([ApplyChatTemplate conversation tokenize],
   Ok (apply_chat_template tokenizer conversation tokenize)).

Definition logging_info (msg : string) : M () := emit (LoggingInfo msg).

(** * Python primitives used by the module *)

(** [isinstance(v, list)] *)
Definition isinstance_list (v : PyVal) : bool :=
  match v with PyList _ => true | _ => false end.

(** [d[key]] on a dict with string keys. *)
Definition dict_getitem {V} (d : gmap string V) (key : string) : result V :=
  match d !! key with
  | Some v => Ok v
  | None => Raise (KeyError (PyStr key))
  end.

(** [v[i]] for a non-negative integer [i]. *)
Definition py_getitem (v : PyVal) (i : nat) : result PyVal :=
  match v with
  | PyList items =>
      match items !! i with Some x => Ok x | None => Raise IndexError end
  | PyStr s =>
      match String.get i s with
      | Some c => Ok (PyStr (String c EmptyString))
      | None => Raise IndexError
      end
  | PyDict _ => Raise (KeyError (PyInt (Z.of_nat i)))
  | PyNone | PyInt _ => Raise TypeError
  end.

(** [len(v)] *)
Definition py_len (v : PyVal) : result nat :=
  match v with
  | PyList items => Ok (length items)
  | PyStr s => Ok (String.length s)
  | PyDict entries => Ok (size entries)
  | PyNone | PyInt _ => Raise TypeError
  end.

(** [for x in xs: body], threading the loop-carried state. *)
Fixpoint for_each {A S} (xs : list A) (body : A → S → M S) (s : S) : M S :=
  match xs with
  | [] => mret s
  | x :: xs' => s' ← body x s; for_each xs' body s'
  end.

(** [for i in range(n): body] *)
Definition for_range {S} (n : nat) (body : nat → S → M S) (s : S) : M S :=
  for_each (seq 0 n) body s.

(** * The row formatters *)

(** A batch of rows: field name to value. *)
Abbreviation Examples := (gmap string PyVal).
Abbreviation FormatDataset := (Examples → M PyVal).

Definition message (role : string) (content : PyVal) : PyVal :=
  PyDict {[ "role" := PyStr role; "content" := content ]}.

Definition conversations_formatting_function
    (tokenizer : AutoTokenizer) (messages_field : string) : FormatDataset :=
  λ examples,
    field ← lift (dict_getitem examples messages_field);
    first ← lift (py_getitem field 0);
    if isinstance_list first then
      field ← lift (dict_getitem examples messages_field);
      n ← lift (py_len field);
      output_texts ← for_range n (λ i output_texts,
        field ← lift (dict_getitem examples messages_field);
        row ← lift (py_getitem field i);
        text ← call_apply_chat_template tokenizer row false;
        mret (output_texts ++ [text])) [];
      mret (PyList output_texts)
    else
      field ← lift (dict_getitem examples messages_field);
      call_apply_chat_template tokenizer field false.

Definition instructions_formatting_function
    (tokenizer : AutoTokenizer) : FormatDataset :=
  λ examples,
    prompt ← lift (dict_getitem examples "prompt");
    if isinstance_list prompt then
      prompt ← lift (dict_getitem examples "prompt");
      n ← lift (py_len prompt);
      output_texts ← for_range n (λ i output_texts,
        prompt ← lift (dict_getitem examples "prompt");
        prompt_i ← lift (py_getitem prompt i);
        completion ← lift (dict_getitem examples "completion");
        completion_i ← lift (py_getitem completion i);
        let converted_sample :=
          PyList [message "user" prompt_i; message "assistant" completion_i] in
        text ← call_apply_chat_template tokenizer converted_sample false;
        mret (output_texts ++ [text])) [];
      mret (PyList output_texts)
    else
      prompt ← lift (dict_getitem examples "prompt");
      completion ← lift (dict_getitem examples "completion");
      let converted_sample :=
        PyList [message "user" prompt; message "assistant" completion] in
      call_apply_chat_template tokenizer converted_sample false.

Definition paddlenlp_instructions_formatting_function
    (tokenizer : AutoTokenizer) : FormatDataset :=
  λ examples,
    src ← lift (dict_getitem examples "src");
    if isinstance_list src then
      src ← lift (dict_getitem examples "src");
      n ← lift (py_len src);
      output_texts ← for_range n (λ i output_texts,
        src ← lift (dict_getitem examples "src");
        src_i ← lift (py_getitem src i);
        tgt ← lift (dict_getitem examples "tgt");
        tgt_i ← lift (py_getitem tgt i);
        let converted_sample :=
          PyList [message "user" src_i; message "assistant" tgt_i] in
        text ← call_apply_chat_template tokenizer converted_sample false;
        mret (output_texts ++ [text])) [];
      mret (PyList output_texts)
    else
      src ← lift (dict_getitem examples "src");
      tgt ← lift (dict_getitem examples "tgt");
      let converted_sample :=
        PyList [message "user" src; message "assistant" tgt] in
      call_apply_chat_template tokenizer converted_sample false.

(** * The schema matcher *)

Record Dataset : Type := {
  features : gmap string Feature
}.

(** The first argument of the matcher is an arbitrary Python object;
    [isinstance(dataset, Dataset)] tells the two cases apart. *)
Inductive PyObject : Type :=
  | PyDataset (d : Dataset)
  | PyOther (v : PyVal).

(** [key in d] *)
Definition dict_contains {V} (key : string) (d : gmap string V) : bool :=
  bool_decide (is_Some (d !! key)).

(** Lines 119-129 of the source: what runs when the [messages] test has not
    returned.  The [elif] chain hangs off the
    ["conversations" in dataset.features] test, so the instruction and
    paddlenlp comparisons are reached only when that key is absent. *)
Definition from_conversations_check
    (format_mapping : gmap string Feature)
    (dataset : Dataset) (tokenizer : AutoTokenizer) : M (option FormatDataset) :=
  if dict_contains "conversations" (features dataset) then
    ty ← lift (dict_getitem (features dataset) "conversations");
    chatml ← lift (dict_getitem format_mapping "chatml");
    if bool_decide (ty = chatml) then
      logging_info "Formatting dataset with chatml format";;
      mret (Some (conversations_formatting_function tokenizer "conversations"))
    else mret None
  else
    instruction ← lift (dict_getitem format_mapping "instruction");
    if bool_decide (FDict (features dataset) = instruction) then
      logging_info "Formatting dataset with instruction format";;
      mret (Some (instructions_formatting_function tokenizer))
    else
      paddlenlp ← lift (dict_getitem format_mapping "paddlenlp");
      if bool_decide (FDict (features dataset) = paddlenlp) then
        mret (Some (paddlenlp_instructions_formatting_function tokenizer))
      else mret None.

(** The matcher, reading the global table it is given. *)
Definition get_formatting_func_from_dataset_with
    (format_mapping : gmap string Feature)
    (dataset : PyObject) (tokenizer : AutoTokenizer) : M (option FormatDataset) :=
  match dataset with
  | PyDataset dataset =>
      if dict_contains "messages" (features dataset) then
        ty ← lift (dict_getitem (features dataset) "messages");
        chatml ← lift (dict_getitem format_mapping "chatml");
        if bool_decide (ty = chatml) then
          logging_info "Formatting dataset with chatml format";;
          mret (Some (conversations_formatting_function tokenizer "messages"))
        else from_conversations_check format_mapping dataset tokenizer
      else from_conversations_check format_mapping dataset tokenizer
  | PyOther _ => mret None
  end.

Definition get_formatting_func_from_dataset
    (dataset : PyObject) (tokenizer : AutoTokenizer) : M (option FormatDataset) :=
  get_formatting_func_from_dataset_with FORMAT_MAPPING dataset tokenizer.

(** * Definitions used by the statements and proofs *)

(** [instructions_formatting_function] and
    [paddlenlp_instructions_formatting_function] have the same body up to the
    names of the two fields they read.  [pair_format_dataset] is that body
    with the names abstracted and the loop body named; both formatters are
    instances of it by unfolding. *)
Definition render_pair (tokenizer : AutoTokenizer) (user assistant : PyVal) : PyVal :=
  apply_chat_template tokenizer
    (PyList [message "user" user; message "assistant" assistant]) false.

Definition pair_conversation (user assistant : PyVal) : PyVal :=
  PyList [message "user" user; message "assistant" assistant].

Definition pair_loop_body (tokenizer : AutoTokenizer)
    (user_field assistant_field : string) (examples : Examples)
    (i : nat) (output_texts : list PyVal) : M (list PyVal) :=
  user ← lift (dict_getitem examples user_field);
  user_i ← lift (py_getitem user i);
  assistant ← lift (dict_getitem examples assistant_field);
  assistant_i ← lift (py_getitem assistant i);
  let converted_sample :=
    PyList [message "user" user_i; message "assistant" assistant_i] in
  text ← call_apply_chat_template tokenizer converted_sample false;
  mret (output_texts ++ [text]).

Definition pair_format_dataset (tokenizer : AutoTokenizer)
    (user_field assistant_field : string) : FormatDataset :=
  λ examples,
    user ← lift (dict_getitem examples user_field);
    if isinstance_list user then
      user ← lift (dict_getitem examples user_field);
      n ← lift (py_len user);
      output_texts ←
        for_range n (pair_loop_body tokenizer user_field assistant_field examples) [];
      mret (PyList output_texts)
    else
      user ← lift (dict_getitem examples user_field);
      assistant ← lift (dict_getitem examples assistant_field);
      let converted_sample :=
        PyList [message "user" user; message "assistant" assistant] in
      call_apply_chat_template tokenizer converted_sample false.

(** Batched rows of an instruction-style dataset: both fields hold lists. *)
Definition batched_pair (user_field assistant_field : string)
    (examples : Examples) (users assistants : list PyVal) : Prop :=
  examples !! user_field = Some (PyList users) ∧
  examples !! assistant_field = Some (PyList assistants).

Definition render_conversation (tokenizer : AutoTokenizer) (conversation : PyVal) : PyVal :=
  apply_chat_template tokenizer conversation false.

(** The body of the batched loop, named so that it can be reasoned about on
    its own. *)
Definition conversations_loop_body (tokenizer : AutoTokenizer)
    (messages_field : string) (examples : Examples)
    (i : nat) (output_texts : list PyVal) : M (list PyVal) :=
  field ← lift (dict_getitem examples messages_field);
  row ← lift (py_getitem field i);
  text ← call_apply_chat_template tokenizer row false;
  mret (output_texts ++ [text]).

(** An event that does not ask the tokenizer for token ids. *)
Definition tokenize_disabled (e : Event) : Prop :=
  match e with
  | ApplyChatTemplate _ tokenize => tokenize = false
  | LoggingInfo _ => True
  end.

(** An event that is not a tokenizer call at all. *)
Definition is_log (e : Event) : Prop :=
  match e with
  | LoggingInfo _ => True
  | ApplyChatTemplate _ _ => False
  end.

Definition log_chatml : Event := LoggingInfo "Formatting dataset with chatml format".
Definition log_instruction : Event :=
  LoggingInfo "Formatting dataset with instruction format".

(** A dataset matches a template when one of the four tests of the matcher
    would succeed on it. *)
Definition matches_template (d : Dataset) : Prop :=
  features d !! "messages" = Some chatml_template
  ∨ features d !! "conversations" = Some chatml_template
  ∨ FDict (features d) = instruction_template
  ∨ FDict (features d) = paddlenlp_template.

Definition no_match (dataset : PyObject) : Prop :=
  match dataset with
  | PyDataset d => ¬ matches_template d
  | PyOther _ => True
  end.

(** [rendered N rendering m]: the computation [m] returns a Python list of
    exactly [N] elements whose [i]-th element is [rendering i]. *)
Definition rendered (N : nat) (rendering : nat → option PyVal) (m : M PyVal) : Prop :=
  ∃ output_texts,
    outcome m = Ok (PyList output_texts)
    ∧ length output_texts = N
    ∧ ∀ i, (i < N)%nat → output_texts !! i = rendering i.

(** The rendering of row [i] of a batch of conversations, and of a batch of
    (user, assistant) pairs. *)
Definition conversation_row (tokenizer : AutoTokenizer) (rows : list PyVal)
    (i : nat) : option PyVal :=
  render_conversation tokenizer <$> rows !! i.

Definition pair_row (tokenizer : AutoTokenizer) (users assistants : list PyVal)
    (i : nat) : option PyVal :=
  u ← users !! i; a ← assistants !! i; Some (render_pair tokenizer u a).

(** Two batches with the same user field, whose assistant fields agree below
    the length of the user field, are formatted identically (same calls, same
    result or same exception). *)
Definition reads_only_prefix (format_dataset : FormatDataset)
    (user_field assistant_field : string) : Prop :=
  ∀ examples1 examples2 users assistants1 assistants2,
    batched_pair user_field assistant_field examples1 users assistants1 →
    batched_pair user_field assistant_field examples2 users assistants2 →
    take (length users) assistants1 = take (length users) assistants2 →
    format_dataset examples1 = format_dataset examples2.

(** The length of the returned list is that of the user field: a list is
    returned as soon as the assistant field is at least as long, and any
    list that is returned has that length. *)
Definition length_from_user_field (format_dataset : FormatDataset)
    (user_field assistant_field : string) : Prop :=
  ∀ examples users assistants,
    batched_pair user_field assistant_field examples users assistants →
    ((length users ≤ length assistants)%nat →
       ∃ output_texts, outcome (format_dataset examples) = Ok (PyList output_texts))
    ∧ (∀ output_texts,
         outcome (format_dataset examples) = Ok (PyList output_texts) →
         length output_texts = length users).


(** A dataset with one more column. *)
Definition add_column (key : string) (ty : Feature) (d : Dataset) : Dataset :=
  {| features := <[key := ty]> (features d) |}.

(** The keys on which the matcher looks for a chat column. *)
Definition chat_key (key : string) : Prop :=
  key = "messages" ∨ key = "conversations".

(** Concrete tokenizer, schemas and rows on which the development is run. *)
Module Samples.

(** A tokenizer that returns the conversation it was given (or [None] when
    asked for token ids), so that outputs show what was rendered. *)
Definition echo : AutoTokenizer :=
  {| apply_chat_template := λ conv tokenize, if tokenize then PyNone else conv |}.

Definition str : Feature := Value "string" None.

(** A chatml [messages] column next to a [conversations] column of plain
    strings. *)
Definition messages_and_text_conversations : Dataset :=
  {| features := {[ "messages" := chatml_template; "conversations" := str ]} |}.

(** A single [conversations] column of plain strings. *)
Definition text_conversations : Dataset :=
  {| features := {[ "conversations" := str ]} |}.

Definition both_chatml : Dataset :=
  {| features := {[ "messages" := chatml_template;
                    "conversations" := chatml_template ]} |}.

Definition only_conversations : Dataset :=
  {| features := {[ "conversations" := chatml_template; "id" := str ]} |}.

Definition instruction_dataset : Dataset :=
  {| features := {[ "prompt" := str; "completion" := str ]} |}.

Definition paddlenlp_dataset : Dataset :=
  {| features := {[ "src" := str; "tgt" := str ]} |}.

Definition text_dataset : Dataset :=
  {| features := {[ "text" := str ]} |}.

Definition hello : PyVal := PyList [message "user" (PyStr "hello")].
Definition bye : PyVal := PyList [message "user" (PyStr "bye")].

End Samples.

(** * Sanity checks: the embedding run on concrete inputs *)

Example sample_instruction_batch :
  instructions_formatting_function Samples.echo
    {[ "prompt" := PyList [PyStr "a"; PyStr "b"];
       "completion" := PyList [PyStr "x"; PyStr "y"] ]}
  = ([ApplyChatTemplate
        (PyList [message "user" (PyStr "a"); message "assistant" (PyStr "x")]) false;
      ApplyChatTemplate
        (PyList [message "user" (PyStr "b"); message "assistant" (PyStr "y")]) false],
     Ok (PyList
           [PyList [message "user" (PyStr "a"); message "assistant" (PyStr "x")];
            PyList [message "user" (PyStr "b"); message "assistant" (PyStr "y")]])).
Proof. vm_compute. reflexivity. Qed.

(** A completion list shorter than the prompt list: the first row is
    rendered, then indexing raises. *)
Example sample_short_completion :
  instructions_formatting_function Samples.echo
    {[ "prompt" := PyList [PyStr "a"; PyStr "b"];
       "completion" := PyList [PyStr "x"] ]}
  = ([ApplyChatTemplate
        (PyList [message "user" (PyStr "a"); message "assistant" (PyStr "x")]) false],
     Raise IndexError).
Proof. vm_compute. reflexivity. Qed.

Example sample_missing_field :
  paddlenlp_instructions_formatting_function Samples.echo {[ "src" := PyStr "hello" ]}
  = ([], Raise (KeyError (PyStr "tgt"))).
Proof. vm_compute. reflexivity. Qed.

(** A single conversation is rendered as a whole. *)
Example sample_single_conversation :
  conversations_formatting_function Samples.echo "messages"
    {[ "messages" := Samples.hello ]}
  = ([ApplyChatTemplate Samples.hello false], Ok Samples.hello).
Proof. vm_compute. reflexivity. Qed.

Example sample_matcher_instruction :
  events (get_formatting_func_from_dataset
            (PyDataset Samples.instruction_dataset) Samples.echo)
  = [LoggingInfo "Formatting dataset with instruction format"].
Proof. vm_compute. reflexivity. Qed.

(** * Laws of the effect monad *)

Section MonadLaws.
Context {A B : Type}.
Implicit Types (f : A → M B).

Lemma bind_lift_Ok a f : lift (Ok a) ≫= f = f a.
Proof. unfold mbind, M_bind, lift; simpl. by destruct (f a). Qed.

Lemma bind_lift_Raise e f : lift (Raise e) ≫= f = ([], Raise e).
Proof. reflexivity. Qed.

Lemma bind_mret a f : mret a ≫= f = f a.
Proof. unfold mbind, M_bind, mret, M_ret; simpl. by destruct (f a). Qed.

Lemma bind_Ok evs a f : ((evs, Ok a) : M A) ≫= f = (evs ++ (f a).1, (f a).2).
Proof. reflexivity. Qed.

Lemma events_bind (m : M A) f :
  events (m ≫= f) =
  events m ++ match outcome m with Ok a => events (f a) | Raise _ => [] end.
Proof.
  destruct m as [evs [a|e]]; unfold events, outcome, mbind, M_bind; simpl.
  - reflexivity.
  - by rewrite app_nil_r.
Qed.
End MonadLaws.

Lemma bind_call_apply_chat_template {B} tokenizer conv tokenize (f : PyVal → M B) :
  call_apply_chat_template tokenizer conv tokenize ≫= f =
  (ApplyChatTemplate conv tokenize :: (f (apply_chat_template tokenizer conv tokenize)).1,
   (f (apply_chat_template tokenizer conv tokenize)).2).
Proof. reflexivity. Qed.

Lemma bind_logging_info {B} msg (f : () → M B) :
  logging_info msg ≫= f = (LoggingInfo msg :: (f ()).1, (f ()).2).
Proof. reflexivity. Qed.

Lemma dict_getitem_Some {V} (d : gmap string V) key v :
  d !! key = Some v → dict_getitem d key = Ok v.
Proof. unfold dict_getitem. by intros ->. Qed.

Lemma py_getitem_list_Some items i x :
  items !! i = Some x → py_getitem (PyList items) i = Ok x.
Proof. simpl. by intros ->. Qed.

Lemma dict_contains_true {V} (d : gmap string V) key v :
  d !! key = Some v → dict_contains key d = true.
Proof. intros H. apply bool_decide_eq_true. by exists v. Qed.

Lemma dict_contains_false {V} (d : gmap string V) key :
  d !! key = None → dict_contains key d = false.
Proof. intros H. apply bool_decide_eq_false. rewrite H. by intros [? ?]. Qed.

Lemma for_each_ext {A S} (xs : list A) (body1 body2 : A → S → M S) s :
  (∀ x s', x ∈ xs → body1 x s' = body2 x s') →
  for_each xs body1 s = for_each xs body2 s.
Proof.
  revert s. induction xs as [|x xs IH]; intros s Hbody; simpl; [done|].
  rewrite Hbody by left.
  destruct (body2 x s) as [evs [s'|e]]; [|done].
  rewrite !bind_Ok, IH; [done|]. intros y s'' Hy. apply Hbody. by right.
Qed.

(** * The two instruction-style formatters as one *)

Lemma instructions_formatting_function_pair tokenizer :
  instructions_formatting_function tokenizer =
  pair_format_dataset tokenizer "prompt" "completion".
Proof. reflexivity. Qed.

Lemma paddlenlp_instructions_formatting_function_pair tokenizer :
  paddlenlp_instructions_formatting_function tokenizer =
  pair_format_dataset tokenizer "src" "tgt".
Proof. reflexivity. Qed.

Section PairFormatter.
Variable tokenizer : AutoTokenizer.
Variables user_field assistant_field : string.

Local Abbreviation body := (pair_loop_body tokenizer user_field assistant_field).
Local Abbreviation format_dataset :=
  (pair_format_dataset tokenizer user_field assistant_field).

Lemma pair_loop_body_step examples users assistants i u a output_texts :
  batched_pair user_field assistant_field examples users assistants →
  users !! i = Some u → assistants !! i = Some a →
  body examples i output_texts =
  ([ApplyChatTemplate (pair_conversation u a) false],
   Ok (output_texts ++ [render_pair tokenizer u a])).
Proof.
  intros [Hu Ha] Hui Hai. unfold pair_loop_body.
  rewrite (dict_getitem_Some _ _ _ Hu), bind_lift_Ok.
  rewrite (py_getitem_list_Some _ _ _ Hui), bind_lift_Ok.
  rewrite (dict_getitem_Some _ _ _ Ha), bind_lift_Ok.
  rewrite (py_getitem_list_Some _ _ _ Hai), bind_lift_Ok.
  reflexivity.
Qed.

(** The loop from index [k] on, for [n] rounds that stay inside both
    lists. *)
Lemma pair_loop_closed examples users assistants n k output_texts :
  batched_pair user_field assistant_field examples users assistants →
  (k + n ≤ length users)%nat → (k + n ≤ length assistants)%nat →
  for_each (seq k n) (body examples) output_texts =
  let us := take n (drop k users) in
  let cs := take n (drop k assistants) in
  ((λ c, ApplyChatTemplate c false) <$> zip_with pair_conversation us cs,
   Ok (output_texts ++ zip_with (render_pair tokenizer) us cs)).
Proof.
  intros Hex. revert k output_texts.
  induction n as [|n IH]; intros k acc Hku Hkc; simpl.
  - by rewrite app_nil_r.
  - destruct (lookup_lt_is_Some_2 users k) as [u Hu]; [lia|].
    destruct (lookup_lt_is_Some_2 assistants k) as [a Ha]; [lia|].
    rewrite (pair_loop_body_step _ _ _ _ _ _ _ Hex Hu Ha), bind_Ok.
    rewrite IH by lia. simpl.
    rewrite (drop_S _ _ _ Hu), (drop_S _ _ _ Ha). simpl.
    by rewrite <- app_assoc.
Qed.

(** Batched input with co-indexed fields: one rendering per row, in row
    order, and nothing else happens. *)
Lemma pair_format_dataset_batched examples users assistants :
  batched_pair user_field assistant_field examples users assistants →
  (length users ≤ length assistants)%nat →
  format_dataset examples =
  ((λ c, ApplyChatTemplate c false) <$> zip_with pair_conversation users assistants,
   Ok (PyList (zip_with (render_pair tokenizer) users assistants))).
Proof.
  intros Hex Hlen. pose proof Hex as [Hu Ha]. unfold pair_format_dataset.
  rewrite (dict_getitem_Some _ _ _ Hu), !bind_lift_Ok.
  cbn [isinstance_list py_len]. rewrite !bind_lift_Ok. unfold for_range.
  rewrite (pair_loop_closed _ _ _ _ 0 [] Hex) by (simpl; lia).
  cbn zeta. rewrite drop_0, firstn_all, bind_Ok. simpl. rewrite app_nil_r.
  assert (zip_with_take : ∀ {X} (f : PyVal → PyVal → X),
    zip_with f users (take (length users) assistants) = zip_with f users assistants).
  { intros X f. rewrite <- (firstn_all users) at 1.
    by rewrite <- zip_with_take, firstn_all2
      by (rewrite length_zip_with; lia). }
  by rewrite !zip_with_take.
Qed.

(** Scalar input: a single rendering. *)
Lemma pair_format_dataset_scalar examples user assistant :
  examples !! user_field = Some user →
  isinstance_list user = false →
  examples !! assistant_field = Some assistant →
  format_dataset examples =
  ([ApplyChatTemplate (pair_conversation user assistant) false],
   Ok (render_pair tokenizer user assistant)).
Proof.
  intros Hu Hscalar Ha. unfold pair_format_dataset.
  rewrite (dict_getitem_Some _ _ _ Hu), !bind_lift_Ok, Hscalar.
  by rewrite (dict_getitem_Some _ _ _ Ha), bind_lift_Ok.
Qed.

(** The formatter looks at the assistant field only at indexes below the
    length of the user field. *)
Lemma pair_format_dataset_agree examples1 examples2 users assistants1 assistants2 :
  batched_pair user_field assistant_field examples1 users assistants1 →
  batched_pair user_field assistant_field examples2 users assistants2 →
  take (length users) assistants1 = take (length users) assistants2 →
  format_dataset examples1 = format_dataset examples2.
Proof.
  intros [Hu1 Ha1] [Hu2 Ha2] Htake. unfold pair_format_dataset.
  rewrite (dict_getitem_Some _ _ _ Hu1), (dict_getitem_Some _ _ _ Hu2), !bind_lift_Ok.
  cbn [isinstance_list py_len]. rewrite !bind_lift_Ok. unfold for_range.
  rewrite (for_each_ext _ (body examples1) (body examples2)); [done|].
  intros i acc Hi. apply elem_of_seq in Hi. unfold pair_loop_body.
  rewrite (dict_getitem_Some _ _ _ Hu1), (dict_getitem_Some _ _ _ Hu2), !bind_lift_Ok.
  destruct (py_getitem (PyList users) i) as [ui|e]; [|done].
  rewrite !bind_lift_Ok.
  rewrite (dict_getitem_Some _ _ _ Ha1), (dict_getitem_Some _ _ _ Ha2), !bind_lift_Ok.
  simpl.
  assert (assistants1 !! i = assistants2 !! i) as ->; [|done].
  rewrite <- (lookup_take_lt assistants1 (length users) i) by lia.
  rewrite <- (lookup_take_lt assistants2 (length users) i) by lia.
  by rewrite Htake.
Qed.
End PairFormatter.

(** * The conversations formatter *)

Section ConversationsFormatter.
Variable tokenizer : AutoTokenizer.
Variable messages_field : string.

Local Abbreviation format_dataset :=
  (conversations_formatting_function tokenizer messages_field).
Local Abbreviation body :=
  (conversations_loop_body tokenizer messages_field).

(** The batched-or-scalar test indexes element 0 before anything else. *)
Lemma conversations_empty_field examples :
  examples !! messages_field = Some (PyList []) →
  format_dataset examples = ([], Raise IndexError).
Proof.
  intros Hfield. unfold conversations_formatting_function.
  by rewrite (dict_getitem_Some _ _ _ Hfield), !bind_lift_Ok.
Qed.

Lemma conversations_formatting_function_loop examples :
  format_dataset examples =
  (field ← lift (dict_getitem examples messages_field);
   first ← lift (py_getitem field 0);
   if isinstance_list first then
     field ← lift (dict_getitem examples messages_field);
     n ← lift (py_len field);
     output_texts ← for_range n (body examples) [];
     mret (PyList output_texts)
   else
     field ← lift (dict_getitem examples messages_field);
     call_apply_chat_template tokenizer field false).
Proof. reflexivity. Qed.

Lemma conversations_loop_body_step examples rows i row output_texts :
  examples !! messages_field = Some (PyList rows) →
  rows !! i = Some row →
  body examples i output_texts =
  ([ApplyChatTemplate row false],
   Ok (output_texts ++ [render_conversation tokenizer row])).
Proof.
  intros Hfield Hrow. unfold conversations_loop_body.
  rewrite (dict_getitem_Some _ _ _ Hfield), bind_lift_Ok.
  by rewrite (py_getitem_list_Some _ _ _ Hrow), bind_lift_Ok.
Qed.

Lemma conversations_loop_closed examples rows n k output_texts :
  examples !! messages_field = Some (PyList rows) →
  (k + n ≤ length rows)%nat →
  for_each (seq k n) (body examples) output_texts =
  ((λ row, ApplyChatTemplate row false) <$> take n (drop k rows),
   Ok (output_texts ++ (render_conversation tokenizer <$> take n (drop k rows)))).
Proof.
  intros Hfield. revert k output_texts.
  induction n as [|n IH]; intros k acc Hk; simpl.
  - by rewrite app_nil_r.
  - destruct (lookup_lt_is_Some_2 rows k) as [row Hrow]; [lia|].
    rewrite (conversations_loop_body_step _ _ _ _ _ Hfield Hrow), bind_Ok.
    rewrite IH by lia. rewrite (drop_S _ _ _ Hrow). simpl.
    by rewrite <- app_assoc.
Qed.

(** A non-empty batch whose first row is a conversation (a list) takes the
    batched path: one rendering per row, in row order. *)
Lemma conversations_batched examples row rows :
  examples !! messages_field = Some (PyList (row :: rows)) →
  isinstance_list row = true →
  format_dataset examples =
  ((λ row, ApplyChatTemplate row false) <$> row :: rows,
   Ok (PyList (render_conversation tokenizer <$> row :: rows))).
Proof.
  intros Hfield Hlist. rewrite conversations_formatting_function_loop.
  rewrite (dict_getitem_Some _ _ _ Hfield), !bind_lift_Ok.
  rewrite (py_getitem_list_Some (row :: rows) 0 row eq_refl), bind_lift_Ok, Hlist.
  cbn [py_len]. rewrite bind_lift_Ok. unfold for_range.
  rewrite (conversations_loop_closed _ _ _ 0 [] Hfield) by (simpl; lia).
  rewrite drop_0, firstn_all, bind_Ok. simpl. by rewrite app_nil_r.
Qed.

(** A field whose first element is not a list is rendered as one
    conversation. *)
Lemma conversations_scalar examples field first :
  examples !! messages_field = Some field →
  py_getitem field 0 = Ok first →
  isinstance_list first = false →
  format_dataset examples =
  ([ApplyChatTemplate field false], Ok (render_conversation tokenizer field)).
Proof.
  intros Hfield Hfirst Hscalar. unfold conversations_formatting_function.
  by rewrite (dict_getitem_Some _ _ _ Hfield), !bind_lift_Ok, Hfirst,
    !bind_lift_Ok, Hscalar.
Qed.
End ConversationsFormatter.

(** * Trace invariants *)

Section TraceInvariant.
Variable P : Event → Prop.

Lemma Forall_events_bind {A B} (m : M A) (f : A → M B) :
  Forall P (events m) → (∀ a, Forall P (events (f a))) →
  Forall P (events (m ≫= f)).
Proof.
  intros Hm Hf. rewrite events_bind. apply Forall_app; split; [done|].
  destruct (outcome m); [apply Hf | constructor].
Qed.

Lemma Forall_events_lift {A} (r : result A) : Forall P (events (lift r)).
Proof. constructor. Qed.

Lemma Forall_events_mret {A} (a : A) : Forall P (events (mret a)).
Proof. constructor. Qed.

Lemma Forall_events_for_each {A S} (xs : list A) (body : A → S → M S) s :
  (∀ x s', Forall P (events (body x s'))) →
  Forall P (events (for_each xs body s)).
Proof.
  intros Hbody. revert s. induction xs as [|x xs IH]; intros s; cbn [for_each].
  - apply Forall_events_mret.
  - apply Forall_events_bind; [apply Hbody | apply IH].
Qed.
End TraceInvariant.

Lemma tokenize_disabled_call tokenizer conversation :
  Forall tokenize_disabled
    (events (call_apply_chat_template tokenizer conversation false)).
Proof. by repeat constructor. Qed.

Lemma is_log_logging_info P msg :
  P (LoggingInfo msg) → Forall P (events (logging_info msg)).
Proof. by repeat constructor. Qed.

(** Walks through a computation built from the primitives above. *)
Ltac trace_invariant :=
  repeat first
    [ apply Forall_events_lift
    | apply Forall_events_mret
    | apply tokenize_disabled_call
    | apply is_log_logging_info; exact I
    | apply Forall_events_for_each; intros
    | apply Forall_events_bind; [|intros]
    | match goal with
      | |- Forall _ (events (if ?b then _ else _)) => destruct b
      | |- Forall _ (events (let _ := _ in _)) => cbn zeta
      end ].

Lemma conversations_tokenize_disabled tokenizer messages_field examples :
  Forall tokenize_disabled
    (events (conversations_formatting_function tokenizer messages_field examples)).
Proof. unfold conversations_formatting_function, for_range. trace_invariant. Qed.

Lemma pair_tokenize_disabled tokenizer user_field assistant_field examples :
  Forall tokenize_disabled
    (events (pair_format_dataset tokenizer user_field assistant_field examples)).
Proof. unfold pair_format_dataset, for_range, pair_loop_body. trace_invariant. Qed.

Lemma matcher_only_logs format_mapping dataset tokenizer :
  Forall is_log
    (events (get_formatting_func_from_dataset_with format_mapping dataset tokenizer)).
Proof.
  unfold get_formatting_func_from_dataset_with, from_conversations_check.
  destruct dataset as [d|v]; trace_invariant.
Qed.

(** * Case analysis of the matcher *)

Section Matcher.
Variable format_mapping : gmap string Feature.
Variable chatml : Feature.
Hypothesis Hchatml : format_mapping !! "chatml" = Some chatml.
Variable tokenizer : AutoTokenizer.

Local Abbreviation matcher :=
  (λ d, get_formatting_func_from_dataset_with format_mapping (PyDataset d) tokenizer).

Lemma matcher_messages d :
  features d !! "messages" = Some chatml →
  matcher d =
  ([log_chatml], Ok (Some (conversations_formatting_function tokenizer "messages"))).
Proof.
  intros Hm. unfold get_formatting_func_from_dataset_with.
  rewrite (dict_contains_true _ _ _ Hm), (dict_getitem_Some _ _ _ Hm), bind_lift_Ok.
  rewrite (dict_getitem_Some _ _ _ Hchatml), bind_lift_Ok.
  by rewrite bool_decide_eq_true_2.
Qed.

Lemma matcher_falls_through d :
  features d !! "messages" ≠ Some chatml →
  matcher d = from_conversations_check format_mapping d tokenizer.
Proof.
  intros Hm. unfold get_formatting_func_from_dataset_with.
  destruct (features d !! "messages") as [ty|] eqn:Hty.
  - rewrite (dict_contains_true _ _ _ Hty), (dict_getitem_Some _ _ _ Hty), bind_lift_Ok.
    rewrite (dict_getitem_Some _ _ _ Hchatml), bind_lift_Ok.
    rewrite bool_decide_eq_false_2; [done|]. congruence.
  - by rewrite (dict_contains_false _ _ Hty).
Qed.

Lemma from_conversations_match d :
  features d !! "conversations" = Some chatml →
  from_conversations_check format_mapping d tokenizer =
  ([log_chatml],
   Ok (Some (conversations_formatting_function tokenizer "conversations"))).
Proof.
  intros Hc. unfold from_conversations_check.
  rewrite (dict_contains_true _ _ _ Hc), (dict_getitem_Some _ _ _ Hc), bind_lift_Ok.
  rewrite (dict_getitem_Some _ _ _ Hchatml), bind_lift_Ok.
  by rewrite bool_decide_eq_true_2.
Qed.

(** Once the key [conversations] is present, nothing but the chatml
    template is consulted. *)
Lemma from_conversations_guard d ty :
  features d !! "conversations" = Some ty → ty ≠ chatml →
  from_conversations_check format_mapping d tokenizer = ([], Ok None).
Proof.
  intros Hc Hne. unfold from_conversations_check.
  rewrite (dict_contains_true _ _ _ Hc), (dict_getitem_Some _ _ _ Hc), bind_lift_Ok.
  rewrite (dict_getitem_Some _ _ _ Hchatml), bind_lift_Ok.
  by rewrite bool_decide_eq_false_2.
Qed.

Section SchemaTemplates.
Variables instruction paddlenlp : Feature.
Hypothesis Hinstruction : format_mapping !! "instruction" = Some instruction.
Hypothesis Hpaddlenlp : format_mapping !! "paddlenlp" = Some paddlenlp.

Lemma from_conversations_instruction d :
  features d !! "conversations" = None →
  FDict (features d) = instruction →
  from_conversations_check format_mapping d tokenizer =
  ([log_instruction], Ok (Some (instructions_formatting_function tokenizer))).
Proof.
  intros Hc Heq. unfold from_conversations_check.
  rewrite (dict_contains_false _ _ Hc).
  rewrite (dict_getitem_Some _ _ _ Hinstruction), bind_lift_Ok.
  by rewrite bool_decide_eq_true_2.
Qed.

Lemma from_conversations_paddlenlp d :
  features d !! "conversations" = None →
  FDict (features d) ≠ instruction →
  FDict (features d) = paddlenlp →
  from_conversations_check format_mapping d tokenizer =
  ([], Ok (Some (paddlenlp_instructions_formatting_function tokenizer))).
Proof.
  intros Hc Hne Heq. unfold from_conversations_check.
  rewrite (dict_contains_false _ _ Hc).
  rewrite (dict_getitem_Some _ _ _ Hinstruction), bind_lift_Ok.
  rewrite bool_decide_eq_false_2 by done.
  rewrite (dict_getitem_Some _ _ _ Hpaddlenlp), bind_lift_Ok.
  by rewrite bool_decide_eq_true_2.
Qed.

Lemma from_conversations_no_match d :
  features d !! "conversations" ≠ Some chatml →
  FDict (features d) ≠ instruction →
  FDict (features d) ≠ paddlenlp →
  from_conversations_check format_mapping d tokenizer = ([], Ok None).
Proof.
  intros Hc Hi Hp.
  destruct (features d !! "conversations") as [ty|] eqn:Hty.
  - apply (from_conversations_guard d ty Hty). congruence.
  - unfold from_conversations_check. rewrite (dict_contains_false _ _ Hty).
    rewrite (dict_getitem_Some _ _ _ Hinstruction), bind_lift_Ok.
    rewrite bool_decide_eq_false_2 by done.
    rewrite (dict_getitem_Some _ _ _ Hpaddlenlp), bind_lift_Ok.
    by rewrite bool_decide_eq_false_2.
Qed.
End SchemaTemplates.
End Matcher.

(** Facts about the table the module actually uses. *)
Lemma FORMAT_MAPPING_chatml : FORMAT_MAPPING !! "chatml" = Some chatml_template.
Proof. reflexivity. Qed.
Lemma FORMAT_MAPPING_instruction :
  FORMAT_MAPPING !! "instruction" = Some instruction_template.
Proof. reflexivity. Qed.
Lemma FORMAT_MAPPING_paddlenlp :
  FORMAT_MAPPING !! "paddlenlp" = Some paddlenlp_template.
Proof. reflexivity. Qed.

Lemma matcher_messages_schema tokenizer d :
  features d !! "messages" = Some chatml_template →
  get_formatting_func_from_dataset (PyDataset d) tokenizer
  = ([log_chatml], Ok (Some (conversations_formatting_function tokenizer "messages"))).
Proof.
  intros Hm. by apply (matcher_messages FORMAT_MAPPING chatml_template).
Qed.

Lemma FDict_inj m1 m2 : FDict m1 = FDict m2 → m1 = m2.
Proof.
  intros Heq.
  exact (f_equal (λ f, match f with FDict m => m | _ => m1 end) Heq).
Qed.

Lemma instruction_template_no_chat_field d key :
  FDict (features d) = instruction_template →
  key = "messages" ∨ key = "conversations" → features d !! key = None.
Proof.
  intros Heq%FDict_inj. rewrite Heq. by intros [-> | ->].
Qed.

Lemma paddlenlp_template_no_chat_field d key :
  FDict (features d) = paddlenlp_template →
  key = "messages" ∨ key = "conversations" → features d !! key = None.
Proof.
  intros Heq%FDict_inj. rewrite Heq. by intros [-> | ->].
Qed.

Lemma instruction_template_ne_paddlenlp : instruction_template ≠ paddlenlp_template.
Proof.
  intros Heq%FDict_inj.
  apply (f_equal (λ m : gmap string Feature, m !! "src")) in Heq. discriminate Heq.
Qed.

(** * Properties of the module *)

(** ** The schema matcher *)

(** C1, as stated, fails: a dataset with a chatml [messages] column and a
    [conversations] column of another type gets the conversations formatter
    bound to [messages], not the absent value. *)
Lemma C1_counterexample :
  (∃ ty, features Samples.messages_and_text_conversations !! "conversations" = Some ty
         ∧ ty ≠ chatml_template)
  ∧ get_formatting_func_from_dataset
      (PyDataset Samples.messages_and_text_conversations) Samples.echo
    = ([log_chatml],
       Ok (Some (conversations_formatting_function Samples.echo "messages")))
  ∧ outcome (get_formatting_func_from_dataset
      (PyDataset Samples.messages_and_text_conversations) Samples.echo) ≠ Ok None.
Proof.
  assert (get_formatting_func_from_dataset
      (PyDataset Samples.messages_and_text_conversations) Samples.echo
    = ([log_chatml],
       Ok (Some (conversations_formatting_function Samples.echo "messages")))) as Hrun.
  { by apply (matcher_messages FORMAT_MAPPING chatml_template). }
  split; [|split; [exact Hrun|]].
  - exists Samples.str. split; [reflexivity | discriminate].
  - rewrite Hrun. discriminate.
Qed.

(** C1, amended: when the [messages] test has not matched, a dataset whose
    schema has a field [conversations] of a type other than the chatml
    template gets the absent value, with no log line and no exception; and
    this holds whatever the table holds under [instruction] and [paddlenlp]
    (even the dataset's own schema, even nothing), so those entries are never
    looked at. *)
Theorem C1_conversations_guard tokenizer d ty :
  features d !! "messages" ≠ Some chatml_template →
  features d !! "conversations" = Some ty →
  ty ≠ chatml_template →
  get_formatting_func_from_dataset (PyDataset d) tokenizer = ([], Ok None)
  ∧ ∀ format_mapping,
      format_mapping !! "chatml" = Some chatml_template →
      get_formatting_func_from_dataset_with format_mapping (PyDataset d) tokenizer
      = ([], Ok None).
Proof.
  intros Hm Hc Hne.
  assert (∀ format_mapping,
      format_mapping !! "chatml" = Some chatml_template →
      get_formatting_func_from_dataset_with format_mapping (PyDataset d) tokenizer
      = ([], Ok None)) as Hall.
  { intros fm Hfm.
    rewrite (matcher_falls_through fm chatml_template Hfm) by done.
    by apply (from_conversations_guard fm chatml_template Hfm tokenizer d ty). }
  split; [|exact Hall].
  apply Hall, FORMAT_MAPPING_chatml.
Qed.

Lemma C1_conversations_guard_witness :
  get_formatting_func_from_dataset (PyDataset Samples.text_conversations) Samples.echo
  = ([], Ok None)
  ∧ get_formatting_func_from_dataset_with
      (<["instruction" := FDict (features Samples.text_conversations)]> FORMAT_MAPPING)
      (PyDataset Samples.text_conversations) Samples.echo
    = ([], Ok None).
Proof.
  destruct (C1_conversations_guard Samples.echo Samples.text_conversations Samples.str)
    as [Hrun Hall].
  - vm_compute. discriminate.
  - reflexivity.
  - vm_compute. discriminate.
  - split; [exact Hrun | apply Hall; reflexivity].
Defined.

(** C3: a dataset whose schema has a field [messages] of the chatml type gets
    the conversations formatter bound to [messages] (and one log line),
    whatever else its schema holds. *)
Theorem C3_messages_first tokenizer d :
  features d !! "messages" = Some chatml_template →
  get_formatting_func_from_dataset (PyDataset d) tokenizer
  = ([log_chatml], Ok (Some (conversations_formatting_function tokenizer "messages"))).
Proof.
  intros Hm.
  exact (matcher_messages FORMAT_MAPPING chatml_template FORMAT_MAPPING_chatml
           tokenizer d Hm).
Qed.

Lemma C3_messages_first_witness :
  get_formatting_func_from_dataset (PyDataset Samples.both_chatml) Samples.echo
  = ([log_chatml],
     Ok (Some (conversations_formatting_function Samples.echo "messages"))).
Proof. apply (C3_messages_first Samples.echo Samples.both_chatml). reflexivity. Defined.

(** C6: an input that is not a dataset, or a dataset matching none of the
    templates, gets the absent value; no exception is raised (and nothing is
    logged). *)
Theorem C6_no_match_absent tokenizer dataset :
  no_match dataset →
  get_formatting_func_from_dataset dataset tokenizer = ([], Ok None).
Proof.
  destruct dataset as [d|v]; [|reflexivity].
  unfold no_match, matches_template. intros Hno.
  unfold get_formatting_func_from_dataset.
  rewrite (matcher_falls_through _ _ FORMAT_MAPPING_chatml) by tauto.
  apply (from_conversations_no_match _ _ FORMAT_MAPPING_chatml tokenizer
           _ _ FORMAT_MAPPING_instruction FORMAT_MAPPING_paddlenlp); tauto.
Qed.

Lemma C6_no_match_absent_witness :
  get_formatting_func_from_dataset (PyDataset Samples.text_dataset) Samples.echo
  = ([], Ok None)
  ∧ get_formatting_func_from_dataset (PyOther (PyStr "not a dataset")) Samples.echo
    = ([], Ok None).
Proof.
  split.
  - apply (C6_no_match_absent Samples.echo (PyDataset Samples.text_dataset)).
    intros [H | [H | [H | H]]]; vm_compute in H; discriminate H.
  - apply (C6_no_match_absent Samples.echo (PyOther (PyStr "not a dataset"))).
    exact I.
Defined.

(** The matcher never raises: its result is a formatter or the absent value. *)
Lemma matcher_total tokenizer dataset :
  ∃ r, outcome (get_formatting_func_from_dataset dataset tokenizer) = Ok r.
Proof.
  destruct dataset as [d|v]; [|by eexists].
  destruct (decide (features d !! "messages" = Some chatml_template)) as [Hm|Hm].
  { rewrite (matcher_messages_schema _ _ Hm). by eexists. }
  unfold get_formatting_func_from_dataset.
  rewrite (matcher_falls_through _ _ FORMAT_MAPPING_chatml) by done.
  destruct (features d !! "conversations") as [ty|] eqn:Hc.
  { destruct (decide (ty = chatml_template)) as [->|Hty].
    - rewrite (from_conversations_match _ _ FORMAT_MAPPING_chatml) by done. by eexists.
    - rewrite (from_conversations_guard _ _ FORMAT_MAPPING_chatml _ _ ty) by done.
      by eexists. }
  destruct (decide (FDict (features d) = instruction_template)) as [Hi|Hi].
  { rewrite (from_conversations_instruction _ _ _ FORMAT_MAPPING_instruction)
      by done. by eexists. }
  destruct (decide (FDict (features d) = paddlenlp_template)) as [Hp|Hp].
  { rewrite (from_conversations_paddlenlp _ _ _ _ FORMAT_MAPPING_instruction
               FORMAT_MAPPING_paddlenlp) by done. by eexists. }
  rewrite (from_conversations_no_match _ _ FORMAT_MAPPING_chatml tokenizer
             _ _ FORMAT_MAPPING_instruction FORMAT_MAPPING_paddlenlp);
    [by eexists | by rewrite Hc | done | done].
Qed.

(** Whenever the matcher returns the absent value it has logged nothing. *)
Lemma matcher_absent_silent tokenizer dataset :
  outcome (get_formatting_func_from_dataset dataset tokenizer) = Ok None →
  events (get_formatting_func_from_dataset dataset tokenizer) = [].
Proof.
  destruct dataset as [d|v]; [|reflexivity].
  destruct (decide (features d !! "messages" = Some chatml_template)) as [Hm|Hm].
  { by rewrite (matcher_messages_schema _ _ Hm). }
  unfold get_formatting_func_from_dataset.
  rewrite (matcher_falls_through _ _ FORMAT_MAPPING_chatml) by done.
  destruct (features d !! "conversations") as [ty|] eqn:Hc.
  { destruct (decide (ty = chatml_template)) as [->|Hty].
    - by rewrite (from_conversations_match _ _ FORMAT_MAPPING_chatml).
    - by rewrite (from_conversations_guard _ _ FORMAT_MAPPING_chatml _ _ ty). }
  destruct (decide (FDict (features d) = instruction_template)) as [Hi|Hi].
  { by rewrite (from_conversations_instruction _ _ _ FORMAT_MAPPING_instruction). }
  destruct (decide (FDict (features d) = paddlenlp_template)) as [Hp|Hp].
  { by rewrite (from_conversations_paddlenlp _ _ _ _ FORMAT_MAPPING_instruction
                  FORMAT_MAPPING_paddlenlp). }
  rewrite (from_conversations_no_match _ _ FORMAT_MAPPING_chatml tokenizer
             _ _ FORMAT_MAPPING_instruction FORMAT_MAPPING_paddlenlp);
    [done | by rewrite Hc | done | done].
Qed.

Lemma matcher_conversations tokenizer d :
  features d !! "messages" ≠ Some chatml_template →
  features d !! "conversations" = Some chatml_template →
  get_formatting_func_from_dataset (PyDataset d) tokenizer
  = ([log_chatml],
     Ok (Some (conversations_formatting_function tokenizer "conversations"))).
Proof.
  intros Hm Hc. unfold get_formatting_func_from_dataset.
  rewrite (matcher_falls_through _ _ FORMAT_MAPPING_chatml) by done.
  by apply (from_conversations_match _ _ FORMAT_MAPPING_chatml).
Qed.

Lemma matcher_instruction_schema tokenizer d :
  FDict (features d) = instruction_template →
  get_formatting_func_from_dataset (PyDataset d) tokenizer
  = ([log_instruction], Ok (Some (instructions_formatting_function tokenizer))).
Proof.
  intros Hi. unfold get_formatting_func_from_dataset.
  rewrite (matcher_falls_through _ _ FORMAT_MAPPING_chatml)
    by (rewrite (instruction_template_no_chat_field d) by auto; discriminate).
  apply (from_conversations_instruction _ _ _ FORMAT_MAPPING_instruction); [|done].
  apply instruction_template_no_chat_field; auto.
Qed.

Lemma matcher_paddlenlp_schema tokenizer d :
  FDict (features d) = paddlenlp_template →
  get_formatting_func_from_dataset (PyDataset d) tokenizer
  = ([], Ok (Some (paddlenlp_instructions_formatting_function tokenizer))).
Proof.
  intros Hp. unfold get_formatting_func_from_dataset.
  rewrite (matcher_falls_through _ _ FORMAT_MAPPING_chatml)
    by (rewrite (paddlenlp_template_no_chat_field d) by auto; discriminate).
  apply (from_conversations_paddlenlp _ _ _ _ FORMAT_MAPPING_instruction
           FORMAT_MAPPING_paddlenlp); [|  |done].
  - apply paddlenlp_template_no_chat_field; auto.
  - rewrite Hp. intros Heq. by apply instruction_template_ne_paddlenlp.
Qed.

(** C7: exactly one call of [logging.info] on the messages-chatml, the
    conversations-chatml and the instruction paths; none on the source-target
    path and none when the absent value is returned. *)
Theorem C7_log_lines tokenizer :
  (∀ d, features d !! "messages" = Some chatml_template →
        get_formatting_func_from_dataset (PyDataset d) tokenizer
        = ([log_chatml],
           Ok (Some (conversations_formatting_function tokenizer "messages"))))
  ∧ (∀ d, features d !! "messages" ≠ Some chatml_template →
          features d !! "conversations" = Some chatml_template →
          get_formatting_func_from_dataset (PyDataset d) tokenizer
          = ([log_chatml],
             Ok (Some (conversations_formatting_function tokenizer "conversations"))))
  ∧ (∀ d, FDict (features d) = instruction_template →
          get_formatting_func_from_dataset (PyDataset d) tokenizer
          = ([log_instruction], Ok (Some (instructions_formatting_function tokenizer))))
  ∧ (∀ d, FDict (features d) = paddlenlp_template →
          get_formatting_func_from_dataset (PyDataset d) tokenizer
          = ([], Ok (Some (paddlenlp_instructions_formatting_function tokenizer))))
  ∧ (∀ dataset,
        outcome (get_formatting_func_from_dataset dataset tokenizer) = Ok None →
        events (get_formatting_func_from_dataset dataset tokenizer) = []).
Proof.
  repeat split.
  - apply matcher_messages_schema.
  - apply matcher_conversations.
  - apply matcher_instruction_schema.
  - apply matcher_paddlenlp_schema.
  - apply matcher_absent_silent.
Qed.

Lemma C7_log_lines_witness :
  events (get_formatting_func_from_dataset (PyDataset Samples.both_chatml) Samples.echo)
  = [log_chatml]
  ∧ events (get_formatting_func_from_dataset
              (PyDataset Samples.only_conversations) Samples.echo)
    = [log_chatml]
  ∧ events (get_formatting_func_from_dataset
              (PyDataset Samples.instruction_dataset) Samples.echo)
    = [log_instruction]
  ∧ events (get_formatting_func_from_dataset
              (PyDataset Samples.paddlenlp_dataset) Samples.echo)
    = []
  ∧ events (get_formatting_func_from_dataset
              (PyDataset Samples.text_dataset) Samples.echo)
    = [].
Proof.
  destruct (C7_log_lines Samples.echo) as (H1 & H2 & H3 & H4 & H5).
  split; [|split; [|split; [|split]]].
  - rewrite (H1 Samples.both_chatml); reflexivity.
  - rewrite (H2 Samples.only_conversations);
      [reflexivity | vm_compute; discriminate | reflexivity].
  - rewrite (H3 Samples.instruction_dataset); [reflexivity | vm_compute; reflexivity].
  - rewrite (H4 Samples.paddlenlp_dataset); [reflexivity | vm_compute; reflexivity].
  - apply (H5 (PyDataset Samples.text_dataset)). reflexivity.
Defined.

(** ** The row formatters *)

Lemma pair_format_dataset_rendered tokenizer user_field assistant_field
    examples users assistants :
  batched_pair user_field assistant_field examples users assistants →
  length users = length assistants →
  rendered (length users) (pair_row tokenizer users assistants)
    (pair_format_dataset tokenizer user_field assistant_field examples).
Proof.
  intros Hex Hlen.
  rewrite (pair_format_dataset_batched _ _ _ _ _ _ Hex) by lia.
  eexists. split; [reflexivity|]. split.
  - rewrite length_zip_with. lia.
  - intros i Hi. unfold pair_row. rewrite lookup_zip_with.
    destruct (users !! i); [|done]. simpl. by destruct (assistants !! i).
Qed.

(** C2, as stated, fails for the conversations formatter at N = 0: the test
    that tells a batch from a single conversation indexes element 0 of the
    field, which raises [IndexError] on the empty batch. *)
Lemma C2_counterexample :
  conversations_formatting_function Samples.echo "messages"
    {[ "messages" := PyList [] ]}
  = ([], Raise IndexError)
  ∧ ¬ rendered 0 (conversation_row Samples.echo [])
        (conversations_formatting_function Samples.echo "messages"
           {[ "messages" := PyList [] ]}).
Proof.
  split; [reflexivity|].
  intros (outs & Hout & _). discriminate Hout.
Qed.

(** C2, amended: the instruction and source-target formatters map every
    batch of N co-indexed rows (N = 0 included) to the list of the N
    renderings, in row order; the conversations formatter does so for every
    batch of N rows whose first row exists and is a list of messages. *)
Theorem C2_shape_preserved tokenizer examples :
  (∀ messages_field rows row,
      examples !! messages_field = Some (PyList rows) →
      rows !! 0%nat = Some row → isinstance_list row = true →
      rendered (length rows) (conversation_row tokenizer rows)
        (conversations_formatting_function tokenizer messages_field examples))
  ∧ (∀ prompts completions,
      batched_pair "prompt" "completion" examples prompts completions →
      length prompts = length completions →
      rendered (length prompts) (pair_row tokenizer prompts completions)
        (instructions_formatting_function tokenizer examples))
  ∧ (∀ srcs tgts,
      batched_pair "src" "tgt" examples srcs tgts →
      length srcs = length tgts →
      rendered (length srcs) (pair_row tokenizer srcs tgts)
        (paddlenlp_instructions_formatting_function tokenizer examples)).
Proof.
  split; [|split].
  - intros field rows row Hfield Hrow Hlist.
    destruct rows as [|row' rows]; [discriminate Hrow|].
    injection Hrow as ->.
    rewrite (conversations_batched _ _ _ _ _ Hfield Hlist).
    eexists. split; [reflexivity|]. split.
    + by rewrite length_fmap.
    + intros i _. unfold conversation_row. by rewrite list_lookup_fmap.
  - intros ps cs Hex Hlen. rewrite instructions_formatting_function_pair.
    by apply pair_format_dataset_rendered.
  - intros ss ts Hex Hlen. rewrite paddlenlp_instructions_formatting_function_pair.
    by apply pair_format_dataset_rendered.
Qed.

Lemma C2_shape_preserved_witness :
  rendered 2 (conversation_row Samples.echo [Samples.hello; Samples.bye])
    (conversations_formatting_function Samples.echo "messages"
       {[ "messages" := PyList [Samples.hello; Samples.bye] ]})
  ∧ rendered 0 (pair_row Samples.echo [] [])
      (instructions_formatting_function Samples.echo
         {[ "prompt" := PyList []; "completion" := PyList [] ]})
  ∧ rendered 1 (pair_row Samples.echo [PyStr "hello"] [PyStr "hi"])
      (paddlenlp_instructions_formatting_function Samples.echo
         {[ "src" := PyList [PyStr "hello"]; "tgt" := PyList [PyStr "hi"] ]}).
Proof.
  split; [|split].
  - apply (proj1 (C2_shape_preserved Samples.echo
              {[ "messages" := PyList [Samples.hello; Samples.bye] ]})
             "messages" [Samples.hello; Samples.bye] Samples.hello);
      reflexivity.
  - apply (proj1 (proj2 (C2_shape_preserved Samples.echo
              {[ "prompt" := PyList []; "completion" := PyList [] ]})) [] []);
      [split; reflexivity | reflexivity].
  - apply (proj2 (proj2 (C2_shape_preserved Samples.echo
              {[ "src" := PyList [PyStr "hello"]; "tgt" := PyList [PyStr "hi"] ]}))
             [PyStr "hello"] [PyStr "hi"]);
      [split; reflexivity | reflexivity].
Defined.

(** C4: for a dataset whose schema is exactly
    [{prompt: string, completion: string}] the matcher returns a formatter
    that maps every batch to the renderings of the conversations
    [[{role: user, content: prompt[i]}, {role: assistant, content: completion[i]}]],
    in index order. *)
Theorem C4_instruction_batches tokenizer d :
  features d = {[ "prompt" := Value "string" None;
                  "completion" := Value "string" None ]} →
  ∃ format_dataset,
    outcome (get_formatting_func_from_dataset (PyDataset d) tokenizer)
    = Ok (Some format_dataset)
    ∧ ∀ examples prompts completions,
        batched_pair "prompt" "completion" examples prompts completions →
        length prompts = length completions →
        format_dataset examples
        = ((λ c, ApplyChatTemplate c false)
             <$> zip_with pair_conversation prompts completions,
           Ok (PyList (zip_with
                 (λ p c, apply_chat_template tokenizer
                           (PyList [message "user" p; message "assistant" c]) false)
                 prompts completions))).
Proof.
  intros Hschema. exists (instructions_formatting_function tokenizer). split.
  - rewrite matcher_instruction_schema; [reflexivity|].
    rewrite Hschema. vm_compute. reflexivity.
  - intros examples ps cs Hex Hlen. rewrite instructions_formatting_function_pair.
    apply pair_format_dataset_batched; [done | lia].
Qed.

Lemma C4_instruction_batches_witness :
  ∃ format_dataset,
    outcome (get_formatting_func_from_dataset
               (PyDataset Samples.instruction_dataset) Samples.echo)
    = Ok (Some format_dataset)
    ∧ outcome (format_dataset
                 {[ "prompt" := PyList [PyStr "a"; PyStr "b"];
                    "completion" := PyList [PyStr "x"; PyStr "y"] ]})
      = Ok (PyList
              [PyList [message "user" (PyStr "a"); message "assistant" (PyStr "x")];
               PyList [message "user" (PyStr "b"); message "assistant" (PyStr "y")]]).
Proof.
  destruct (C4_instruction_batches Samples.echo Samples.instruction_dataset)
    as (format_dataset & Hselect & Hrun); [reflexivity|].
  exists format_dataset. split; [exact Hselect|].
  rewrite (Hrun _ [PyStr "a"; PyStr "b"] [PyStr "x"; PyStr "y"]);
    [reflexivity | split; reflexivity | reflexivity].
Defined.

(** C5: on a scalar input the source-target formatter returns the single
    rendering of [[{role: user, content: src}, {role: assistant, content: tgt}]],
    requested as text. *)
Theorem C5_source_target_scalar tokenizer examples src tgt :
  examples !! "src" = Some src →
  isinstance_list src = false →
  examples !! "tgt" = Some tgt →
  paddlenlp_instructions_formatting_function tokenizer examples
  = ([ApplyChatTemplate
        (PyList [message "user" src; message "assistant" tgt]) false],
     Ok (apply_chat_template tokenizer
           (PyList [message "user" src; message "assistant" tgt]) false)).
Proof.
  intros Hsrc Hscalar Htgt. rewrite paddlenlp_instructions_formatting_function_pair.
  by apply pair_format_dataset_scalar.
Qed.

Lemma C5_source_target_scalar_witness :
  paddlenlp_instructions_formatting_function Samples.echo
    {[ "src" := PyStr "hello"; "tgt" := PyStr "hi" ]}
  = ([ApplyChatTemplate
        (PyList [message "user" (PyStr "hello"); message "assistant" (PyStr "hi")])
        false],
     Ok (PyList [message "user" (PyStr "hello"); message "assistant" (PyStr "hi")])).
Proof.
  apply (C5_source_target_scalar Samples.echo
           {[ "src" := PyStr "hello"; "tgt" := PyStr "hi" ]}
           (PyStr "hello") (PyStr "hi")); reflexivity.
Defined.

(** C8: every call of [apply_chat_template] made by a formatter passes
    [tokenize=False], on every input and also on the runs that end in an
    exception; the matcher itself makes no such call. *)
Theorem C8_tokenize_false tokenizer :
  (∀ messages_field examples,
      Forall tokenize_disabled
        (events (conversations_formatting_function tokenizer messages_field examples)))
  ∧ (∀ examples,
      Forall tokenize_disabled
        (events (instructions_formatting_function tokenizer examples)))
  ∧ (∀ examples,
      Forall tokenize_disabled
        (events (paddlenlp_instructions_formatting_function tokenizer examples)))
  ∧ (∀ dataset,
      Forall is_log (events (get_formatting_func_from_dataset dataset tokenizer))).
Proof.
  split; [|split; [|split]].
  - intros field examples. apply conversations_tokenize_disabled.
  - intros examples. rewrite instructions_formatting_function_pair.
    apply pair_tokenize_disabled.
  - intros examples. rewrite paddlenlp_instructions_formatting_function_pair.
    apply pair_tokenize_disabled.
  - intros dataset. apply matcher_only_logs.
Qed.

(** C9: the conversations formatter indexes element 0 of the bound field
    before anything else, so on a field holding the empty list it raises
    [IndexError] (having rendered nothing) instead of returning an empty
    list. *)
Theorem C9_empty_field_raises tokenizer messages_field examples :
  examples !! messages_field = Some (PyList []) →
  conversations_formatting_function tokenizer messages_field examples
  = ([], Raise IndexError).
Proof. apply conversations_empty_field. Qed.

Lemma C9_empty_field_raises_witness :
  conversations_formatting_function Samples.echo "conversations"
    {[ "conversations" := PyList [] ]}
  = ([], Raise IndexError).
Proof.
  apply (C9_empty_field_raises Samples.echo "conversations"
           {[ "conversations" := PyList [] ]}).
  reflexivity.
Defined.

(** ** Which entries of the assistant field are read *)

Section PairFormatterShort.
Variable tokenizer : AutoTokenizer.
Variables user_field assistant_field : string.

Local Abbreviation body := (pair_loop_body tokenizer user_field assistant_field).

(** A loop that runs past the end of the assistant list stops with
    [IndexError]. *)
Lemma pair_loop_short examples users assistants n k output_texts :
  batched_pair user_field assistant_field examples users assistants →
  (k + n ≤ length users)%nat →
  (k ≤ length assistants < k + n)%nat →
  outcome (for_each (seq k n) (body examples) output_texts) = Raise IndexError.
Proof.
  intros Hex. revert k output_texts.
  induction n as [|n IH]; intros k acc Hku Hka; [lia|]. cbn [for_each seq].
  destruct (lookup_lt_is_Some_2 users k) as [u Hu]; [lia|].
  destruct (assistants !! k) as [a|] eqn:Ha.
  - rewrite (pair_loop_body_step _ _ _ _ _ _ _ _ _ _ Hex Hu Ha), bind_Ok.
    apply lookup_lt_Some in Ha. apply IH; lia.
  - destruct Hex as [Hus Has]. unfold pair_loop_body.
    rewrite (dict_getitem_Some _ _ _ Hus), bind_lift_Ok.
    rewrite (py_getitem_list_Some _ _ _ Hu), bind_lift_Ok.
    rewrite (dict_getitem_Some _ _ _ Has), bind_lift_Ok.
    cbn [py_getitem]. rewrite Ha. reflexivity.
Qed.

Lemma pair_format_dataset_short examples users assistants :
  batched_pair user_field assistant_field examples users assistants →
  (length assistants < length users)%nat →
  outcome (pair_format_dataset tokenizer user_field assistant_field examples)
  = Raise IndexError.
Proof.
  intros Hex Hlen. pose proof Hex as [Hu Ha]. unfold pair_format_dataset.
  rewrite (dict_getitem_Some _ _ _ Hu), !bind_lift_Ok.
  cbn [isinstance_list py_len]. rewrite !bind_lift_Ok. unfold for_range.
  pose proof (pair_loop_short _ _ _ (length users) 0 [] Hex) as Hloop.
  destruct (for_each _ _ _) as [evs [outs|e]]; unfold outcome in *; simpl in *.
  - discriminate Hloop; lia.
  - f_equal.
    assert (Raise (A := list PyVal) e = Raise IndexError) as [= ->]
      by (apply Hloop; lia).
    reflexivity.
Qed.

(** When the formatter returns a list, the list is as long as the user
    field. *)
Lemma pair_format_dataset_length examples users assistants output_texts :
  batched_pair user_field assistant_field examples users assistants →
  outcome (pair_format_dataset tokenizer user_field assistant_field examples)
  = Ok (PyList output_texts) →
  length output_texts = length users.
Proof.
  intros Hex Hout.
  destruct (decide (length users ≤ length assistants)%nat) as [Hle|Hgt].
  - rewrite (pair_format_dataset_batched _ _ _ _ _ _ Hex Hle) in Hout.
    injection Hout as <-. rewrite length_zip_with. lia.
  - rewrite (pair_format_dataset_short _ _ _ Hex) in Hout by lia. discriminate Hout.
Qed.
End PairFormatterShort.

Lemma pair_reads_only_prefix tokenizer user_field assistant_field :
  reads_only_prefix (pair_format_dataset tokenizer user_field assistant_field)
    user_field assistant_field.
Proof. intros ? ? ? ? ?. apply pair_format_dataset_agree. Qed.

Lemma pair_length_from_user_field tokenizer user_field assistant_field :
  length_from_user_field (pair_format_dataset tokenizer user_field assistant_field)
    user_field assistant_field.
Proof.
  intros examples users assistants Hex. split.
  - intros Hle. rewrite (pair_format_dataset_batched _ _ _ _ _ _ Hex Hle). by eexists.
  - intros outs. by apply pair_format_dataset_length with assistants.
Qed.

(** C10: on batched input the instruction formatter's output length is the
    length of [prompt], and entries of [completion] at indexes at or beyond
    that length have no influence on what it does; likewise for [src] and
    [tgt] in the source-target formatter. *)
Theorem C10_completion_prefix tokenizer :
  reads_only_prefix (instructions_formatting_function tokenizer) "prompt" "completion"
  ∧ length_from_user_field
      (instructions_formatting_function tokenizer) "prompt" "completion"
  ∧ reads_only_prefix
      (paddlenlp_instructions_formatting_function tokenizer) "src" "tgt"
  ∧ length_from_user_field
      (paddlenlp_instructions_formatting_function tokenizer) "src" "tgt".
Proof.
  rewrite instructions_formatting_function_pair,
    paddlenlp_instructions_formatting_function_pair.
  split; [|split; [|split]];
    auto using pair_reads_only_prefix, pair_length_from_user_field.
Qed.

Lemma C10_completion_prefix_witness :
  instructions_formatting_function Samples.echo
    {[ "prompt" := PyList [PyStr "a"];
       "completion" := PyList [PyStr "x"; PyStr "ignored"] ]}
  = instructions_formatting_function Samples.echo
      {[ "prompt" := PyList [PyStr "a"];
         "completion" := PyList [PyStr "x"; PyStr "other"; PyStr "tail"] ]}
  ∧ ∃ output_texts,
      outcome (paddlenlp_instructions_formatting_function Samples.echo
                 {[ "src" := PyList [PyStr "a"];
                    "tgt" := PyList [PyStr "x"; PyStr "ignored"] ]})
      = Ok (PyList output_texts)
      ∧ length output_texts = 1%nat.
Proof.
  destruct (C10_completion_prefix Samples.echo) as (Hprefix & _ & _ & Hlength).
  split.
  - apply (Hprefix _ _ [PyStr "a"]
             [PyStr "x"; PyStr "ignored"] [PyStr "x"; PyStr "other"; PyStr "tail"]);
      [split; reflexivity | split; reflexivity | reflexivity].
  - destruct (Hlength {[ "src" := PyList [PyStr "a"];
                         "tgt" := PyList [PyStr "x"; PyStr "ignored"] ]}
                [PyStr "a"] [PyStr "x"; PyStr "ignored"]) as [Hreturns Hsame];
      [split; reflexivity|].
    destruct Hreturns as [outs Houts]; [simpl; lia|].
    exists outs. split; [exact Houts | exact (Hsame outs Houts)].
Defined.

(** * Further properties of the matcher *)

Lemma matcher_no_match tokenizer d :
  ¬ matches_template d →
  get_formatting_func_from_dataset (PyDataset d) tokenizer = ([], Ok None).
Proof.
  unfold matches_template. intros Hno. unfold get_formatting_func_from_dataset.
  rewrite (matcher_falls_through _ _ FORMAT_MAPPING_chatml) by tauto.
  apply (from_conversations_no_match _ _ FORMAT_MAPPING_chatml tokenizer
           _ _ FORMAT_MAPPING_instruction FORMAT_MAPPING_paddlenlp); tauto.
Qed.

(** A schema with a column under a chat key is neither the instruction nor
    the source-target template. *)
Lemma chat_column_not_schema_template d key ty :
  chat_key key → features d !! key = Some ty →
  FDict (features d) ≠ instruction_template
  ∧ FDict (features d) ≠ paddlenlp_template.
Proof.
  intros Hkey Hty. split; intros Heq.
  - rewrite (instruction_template_no_chat_field d key Heq Hkey) in Hty. discriminate Hty.
  - rewrite (paddlenlp_template_no_chat_field d key Heq Hkey) in Hty. discriminate Hty.
Qed.

(** The five ways through the matcher, each with the condition on the schema
    under which it is taken. *)
Lemma matcher_cases tokenizer d :
  (features d !! "messages" = Some chatml_template
   ∧ get_formatting_func_from_dataset (PyDataset d) tokenizer
     = ([log_chatml],
        Ok (Some (conversations_formatting_function tokenizer "messages"))))
  ∨ (features d !! "messages" ≠ Some chatml_template
     ∧ features d !! "conversations" = Some chatml_template
     ∧ get_formatting_func_from_dataset (PyDataset d) tokenizer
       = ([log_chatml],
          Ok (Some (conversations_formatting_function tokenizer "conversations"))))
  ∨ (FDict (features d) = instruction_template
     ∧ get_formatting_func_from_dataset (PyDataset d) tokenizer
       = ([log_instruction], Ok (Some (instructions_formatting_function tokenizer))))
  ∨ (FDict (features d) = paddlenlp_template
     ∧ get_formatting_func_from_dataset (PyDataset d) tokenizer
       = ([], Ok (Some (paddlenlp_instructions_formatting_function tokenizer))))
  ∨ (¬ matches_template d
     ∧ get_formatting_func_from_dataset (PyDataset d) tokenizer = ([], Ok None)).
Proof.
  destruct (decide (features d !! "messages" = Some chatml_template)) as [Hm|Hm].
  { left. split; [done|]. by apply matcher_messages_schema. }
  destruct (decide (features d !! "conversations" = Some chatml_template)) as [Hc|Hc].
  { right; left. split; [done|]. split; [done|]. by apply matcher_conversations. }
  destruct (decide (FDict (features d) = instruction_template)) as [Hi|Hi].
  { do 2 right; left. split; [done|]. by apply matcher_instruction_schema. }
  destruct (decide (FDict (features d) = paddlenlp_template)) as [Hp|Hp].
  { do 3 right; left. split; [done|]. by apply matcher_paddlenlp_schema. }
  do 4 right.
  assert (¬ matches_template d) as Hno by (unfold matches_template; tauto).
  split; [done|]. by apply matcher_no_match.
Qed.

(** X1: on every input the matcher returns normally (a formatter or the
    absent value, never an exception) and has called [logging.info] at most
    once. *)
Theorem matcher_returns_with_at_most_one_log tokenizer dataset :
  (∃ r, outcome (get_formatting_func_from_dataset dataset tokenizer) = Ok r)
  ∧ (length (events (get_formatting_func_from_dataset dataset tokenizer)) ≤ 1)%nat.
Proof.
  destruct dataset as [d|v]; [|split; [by eexists | simpl; lia]].
  destruct (matcher_cases tokenizer d)
    as [[_ ->] | [(_ & _ & ->) | [[_ ->] | [[_ ->] | [_ ->]]]]];
    (split; [by eexists | simpl; lia]).
Qed.

(** X2: the matcher returns the absent value exactly when its input is not a
    dataset or is a dataset on which none of its four tests succeeds. *)
Theorem matcher_absent_iff_no_match tokenizer dataset :
  outcome (get_formatting_func_from_dataset dataset tokenizer) = Ok None
  ↔ no_match dataset.
Proof.
  destruct dataset as [d|v]; [|by split]. unfold no_match.
  destruct (matcher_cases tokenizer d)
    as [[Hm ->] | [(_ & Hc & ->) | [[Hi ->] | [[Hp ->] | [Hno ->]]]]];
    try (split; [discriminate | intros Hno; exfalso; apply Hno;
                                unfold matches_template; tauto]).
  by split.
Qed.

(** X3: the log left by the matcher tells which test succeeded.  The
    instruction line is logged exactly for the exact instruction schema, the
    chatml line exactly when a chat column has the chatml type, and a
    formatter is returned without any log exactly for the exact source-target
    schema. *)
Theorem matcher_log_identifies_match tokenizer d :
  (events (get_formatting_func_from_dataset (PyDataset d) tokenizer) = [log_instruction]
   ↔ FDict (features d) = instruction_template)
  ∧ (events (get_formatting_func_from_dataset (PyDataset d) tokenizer) = [log_chatml]
     ↔ features d !! "messages" = Some chatml_template
       ∨ features d !! "conversations" = Some chatml_template)
  ∧ (events (get_formatting_func_from_dataset (PyDataset d) tokenizer) = []
     ∧ outcome (get_formatting_func_from_dataset (PyDataset d) tokenizer) ≠ Ok None
     ↔ FDict (features d) = paddlenlp_template).
Proof.
  pose proof instruction_template_ne_paddlenlp as Hne.
  pose proof (chat_column_not_schema_template d "messages" chatml_template
                (or_introl eq_refl)) as Hmessages.
  pose proof (chat_column_not_schema_template d "conversations" chatml_template
                (or_intror eq_refl)) as Hconversations.
  unfold matches_template.
  destruct (matcher_cases tokenizer d)
    as [[Hm ->] | [(Hm & Hc & ->) | [[Hi ->] | [[Hp ->] | [Hno ->]]]]];
    unfold events, outcome; simpl;
    (split; [|split]; split; intros;
     repeat match goal with
            | H : _ ∧ _ |- _ => destruct H
            | H : _ ∨ _ |- _ => destruct H
            end;
     first [ done | discriminate | tauto | congruence
           | exfalso; unfold matches_template in *; tauto ]).
Qed.

Lemma add_column_lookup key ty d key' :
  features (add_column key ty d) !! key'
  = if decide (key = key') then Some ty else features d !! key'.
Proof. unfold add_column. simpl. apply lookup_insert. Qed.

(** Adding a column to one of the two exact schemas yields neither of
    them. *)
Lemma add_column_not_schema_template key ty d :
  FDict (features d) = instruction_template ∨ FDict (features d) = paddlenlp_template →
  features d !! key = None →
  FDict (features (add_column key ty d)) ≠ instruction_template
  ∧ FDict (features (add_column key ty d)) ≠ paddlenlp_template.
Proof.
  intros Hschema Hfresh.
  assert (∀ probe, features (add_column key ty d) !! probe = None →
                   features d !! probe = None) as Hback.
  { intros probe. rewrite add_column_lookup. by case_decide. }
  assert (features (add_column key ty d) !! key = Some ty) as Hkey.
  { rewrite add_column_lookup. by case_decide. }
  split; intros Heq%FDict_inj; destruct Hschema as [Hd%FDict_inj | Hd%FDict_inj].
  - rewrite Heq, <- Hd, Hfresh in Hkey. discriminate Hkey.
  - specialize (Hback "src"). rewrite Heq, Hd in Hback. by specialize (Hback eq_refl).
  - specialize (Hback "prompt"). rewrite Heq, Hd in Hback. by specialize (Hback eq_refl).
  - rewrite Heq, <- Hd, Hfresh in Hkey. discriminate Hkey.
Qed.

(** X4: the instruction and source-target tests compare the whole schema, so
    one more column defeats them: a dataset with one of the two exact schemas
    and an added column gets the absent value, unless the added column is a
    chat column of the chatml type, in which case it gets the conversations
    formatter bound to that column. *)
Theorem extra_column_defeats_schema_match tokenizer d key ty :
  FDict (features d) = instruction_template ∨ FDict (features d) = paddlenlp_template →
  features d !! key = None →
  (¬ (chat_key key ∧ ty = chatml_template) →
     get_formatting_func_from_dataset (PyDataset (add_column key ty d)) tokenizer
     = ([], Ok None))
  ∧ (chat_key key → ty = chatml_template →
     get_formatting_func_from_dataset (PyDataset (add_column key ty d)) tokenizer
     = ([log_chatml], Ok (Some (conversations_formatting_function tokenizer key)))).
Proof.
  intros Hschema Hfresh.
  destruct (add_column_not_schema_template key ty d Hschema Hfresh) as [Hi Hp].
  assert (∀ probe, chat_key probe → features d !! probe = None) as Hnochat.
  { intros probe Hprobe. destruct Hschema as [Hd | Hd].
    - by apply instruction_template_no_chat_field.
    - by apply paddlenlp_template_no_chat_field. }
  split.
  - intros Hnot. apply matcher_no_match. unfold matches_template, chat_key in *.
    rewrite !add_column_lookup.
    intros [Hm | [Hc | [Hx | Hx]]]; [| |done|done].
    + case_decide as Hk; [|rewrite Hnochat in Hm by auto; discriminate Hm].
      apply Hnot. split; [auto | congruence].
    + case_decide as Hk; [|rewrite Hnochat in Hc by auto; discriminate Hc].
      apply Hnot. split; [auto | congruence].
  - intros [-> | ->] ->.
    + apply matcher_messages_schema. rewrite add_column_lookup. by case_decide.
    + apply matcher_conversations.
      * rewrite add_column_lookup. case_decide; [done|].
        rewrite Hnochat by (by left). discriminate.
      * rewrite add_column_lookup. by case_decide.
Qed.

Lemma extra_column_defeats_schema_match_witness :
  get_formatting_func_from_dataset
    (PyDataset (add_column "id" Samples.str Samples.instruction_dataset)) Samples.echo
  = ([], Ok None)
  ∧ get_formatting_func_from_dataset
      (PyDataset (add_column "conversations" chatml_template Samples.paddlenlp_dataset))
      Samples.echo
    = ([log_chatml],
       Ok (Some (conversations_formatting_function Samples.echo "conversations"))).
Proof.
  split.
  - apply (proj1 (extra_column_defeats_schema_match Samples.echo
                    Samples.instruction_dataset "id" Samples.str
                    (or_introl eq_refl) eq_refl)).
    intros [[H | H] _]; discriminate H.
  - apply (proj2 (extra_column_defeats_schema_match Samples.echo
                    Samples.paddlenlp_dataset "conversations" chatml_template
                    (or_intror eq_refl) eq_refl)).
    + right. reflexivity.
    + reflexivity.
Defined.

(** * Further properties of the formatters *)

Lemma dict_getitem_lookup_eq {V} (d1 d2 : gmap string V) key :
  d1 !! key = d2 !! key → dict_getitem d1 key = dict_getitem d2 key.
Proof. unfold dict_getitem. by intros ->. Qed.

Lemma conversations_only_bound_field tokenizer messages_field examples1 examples2 :
  examples1 !! messages_field = examples2 !! messages_field →
  conversations_formatting_function tokenizer messages_field examples1
  = conversations_formatting_function tokenizer messages_field examples2.
Proof.
  intros Hfield%dict_getitem_lookup_eq.
  rewrite !conversations_formatting_function_loop, Hfield.
  destruct (dict_getitem examples2 messages_field) as [field|e] eqn:Hget; [|done].
  rewrite !bind_lift_Ok.
  destruct (py_getitem field 0) as [first|e]; [|done]. rewrite !bind_lift_Ok.
  destruct (isinstance_list first); [|done].
  destruct (py_len field) as [n|e]; [|done]. rewrite !bind_lift_Ok.
  unfold for_range.
  rewrite (for_each_ext _ (conversations_loop_body tokenizer messages_field examples1)
             (conversations_loop_body tokenizer messages_field examples2)); [done|].
  intros i acc _. unfold conversations_loop_body. by rewrite Hfield, Hget.
Qed.

Lemma pair_only_two_fields tokenizer user_field assistant_field examples1 examples2 :
  examples1 !! user_field = examples2 !! user_field →
  examples1 !! assistant_field = examples2 !! assistant_field →
  pair_format_dataset tokenizer user_field assistant_field examples1
  = pair_format_dataset tokenizer user_field assistant_field examples2.
Proof.
  intros Hu%dict_getitem_lookup_eq Ha%dict_getitem_lookup_eq.
  unfold pair_format_dataset. rewrite Hu, Ha.
  destruct (dict_getitem examples2 user_field) as [user|e] eqn:Hget; [|done].
  rewrite !bind_lift_Ok.
  destruct (isinstance_list user); [|done].
  destruct (py_len user) as [n|e]; [|done]. rewrite !bind_lift_Ok.
  unfold for_range.
  rewrite (for_each_ext _
             (pair_loop_body tokenizer user_field assistant_field examples1)
             (pair_loop_body tokenizer user_field assistant_field examples2)); [done|].
  intros i acc _. unfold pair_loop_body. by rewrite Hu, Ha, Hget.
Qed.

(** X5: a formatter reads nothing but its own fields.  Two batches that
    agree on the bound field (conversations), on [prompt] and [completion]
    (instruction) or on [src] and [tgt] (source-target) are formatted
    identically: same tokenizer calls, same result or same exception,
    whatever their other fields hold. *)
Theorem formatters_read_only_their_fields tokenizer examples1 examples2 :
  (∀ messages_field,
      examples1 !! messages_field = examples2 !! messages_field →
      conversations_formatting_function tokenizer messages_field examples1
      = conversations_formatting_function tokenizer messages_field examples2)
  ∧ (examples1 !! "prompt" = examples2 !! "prompt" →
     examples1 !! "completion" = examples2 !! "completion" →
     instructions_formatting_function tokenizer examples1
     = instructions_formatting_function tokenizer examples2)
  ∧ (examples1 !! "src" = examples2 !! "src" →
     examples1 !! "tgt" = examples2 !! "tgt" →
     paddlenlp_instructions_formatting_function tokenizer examples1
     = paddlenlp_instructions_formatting_function tokenizer examples2).
Proof.
  split; [|split].
  - intros field. apply conversations_only_bound_field.
  - rewrite instructions_formatting_function_pair. apply pair_only_two_fields.
  - rewrite paddlenlp_instructions_formatting_function_pair. apply pair_only_two_fields.
Qed.

Lemma formatters_read_only_their_fields_witness :
  conversations_formatting_function Samples.echo "messages"
    {[ "messages" := Samples.hello; "conversations" := PyNone ]}
  = conversations_formatting_function Samples.echo "messages"
      {[ "messages" := Samples.hello; "label" := PyInt 3 ]}
  ∧ paddlenlp_instructions_formatting_function Samples.echo
      {[ "src" := PyStr "hello"; "tgt" := PyStr "hi"; "prompt" := PyStr "p" ]}
    = paddlenlp_instructions_formatting_function Samples.echo
        {[ "src" := PyStr "hello"; "tgt" := PyStr "hi" ]}.
Proof.
  split.
  - apply (proj1 (formatters_read_only_their_fields Samples.echo
                    {[ "messages" := Samples.hello; "conversations" := PyNone ]}
                    {[ "messages" := Samples.hello; "label" := PyInt 3 ]})).
    reflexivity.
  - apply (proj2 (proj2 (formatters_read_only_their_fields Samples.echo
                    {[ "src" := PyStr "hello"; "tgt" := PyStr "hi"; "prompt" := PyStr "p" ]}
                    {[ "src" := PyStr "hello"; "tgt" := PyStr "hi" ]})));
      reflexivity.
Defined.

(** X6: the conversations formatter decides between batch and single
    conversation on element 0 of the bound field alone.  When that element is
    a list, every element of the field is passed to the tokenizer as it is,
    once, in order, and the results are returned as a list; when it is not a
    list, the field is passed to the tokenizer whole, once, and the single
    result is returned. *)
Theorem conversations_shape_decided_by_first_element
    tokenizer messages_field examples first rest :
  examples !! messages_field = Some (PyList (first :: rest)) →
  conversations_formatting_function tokenizer messages_field examples
  = if isinstance_list first then
      ((λ row, ApplyChatTemplate row false) <$> first :: rest,
       Ok (PyList ((λ row, apply_chat_template tokenizer row false) <$> first :: rest)))
    else
      ([ApplyChatTemplate (PyList (first :: rest)) false],
       Ok (apply_chat_template tokenizer (PyList (first :: rest)) false)).
Proof.
  intros Hfield. destruct (isinstance_list first) eqn:Hfirst.
  - by apply conversations_batched.
  - by apply (conversations_scalar _ _ _ _ first).
Qed.

Lemma conversations_shape_decided_by_first_element_witness :
  conversations_formatting_function Samples.echo "messages"
    {[ "messages" := PyList [Samples.hello; PyStr "not a conversation"] ]}
  = ([ApplyChatTemplate Samples.hello false;
      ApplyChatTemplate (PyStr "not a conversation") false],
     Ok (PyList [Samples.hello; PyStr "not a conversation"]))
  ∧ conversations_formatting_function Samples.echo "messages"
      {[ "messages" := Samples.hello ]}
    = ([ApplyChatTemplate Samples.hello false], Ok Samples.hello).
Proof.
  split.
  - apply (conversations_shape_decided_by_first_element Samples.echo "messages"
             {[ "messages" := PyList [Samples.hello; PyStr "not a conversation"] ]}
             Samples.hello [PyStr "not a conversation"]).
    reflexivity.
  - apply (conversations_shape_decided_by_first_element Samples.echo "messages"
             {[ "messages" := Samples.hello ]}
             (message "user" (PyStr "hello")) []).
    reflexivity.
Defined.

Section PairFormatterErrors.
Variable tokenizer : AutoTokenizer.
Variables user_field assistant_field : string.

Local Abbreviation body := (pair_loop_body tokenizer user_field assistant_field).
Local Abbreviation format_dataset :=
  (pair_format_dataset tokenizer user_field assistant_field).

Lemma pair_missing_user examples :
  examples !! user_field = None →
  format_dataset examples = ([], Raise (KeyError (PyStr user_field))).
Proof.
  intros Hu. unfold pair_format_dataset, dict_getitem. by rewrite Hu.
Qed.

Lemma pair_missing_assistant examples user :
  examples !! user_field = Some user → user ≠ PyList [] →
  examples !! assistant_field = None →
  format_dataset examples = ([], Raise (KeyError (PyStr assistant_field))).
Proof.
  intros Hu Hne Ha.
  assert (dict_getitem examples assistant_field
          = Raise (KeyError (PyStr assistant_field))) as Hget.
  { unfold dict_getitem. by rewrite Ha. }
  unfold pair_format_dataset.
  rewrite (dict_getitem_Some _ _ _ Hu), !bind_lift_Ok.
  destruct (isinstance_list user) eqn:Hlist.
  - destruct user as [| | |[|u users]|]; try discriminate Hlist; [done|].
    cbn [py_len]. rewrite bind_lift_Ok. unfold for_range.
    cbn [length seq for_each].
    assert (body examples 0 [] = ([], Raise (KeyError (PyStr assistant_field))))
      as ->; [|done].
    unfold pair_loop_body.
    rewrite (dict_getitem_Some _ _ _ Hu), bind_lift_Ok.
    rewrite (py_getitem_list_Some (u :: users) 0 u eq_refl), bind_lift_Ok.
    by rewrite Hget.
  - by rewrite Hget.
Qed.

Lemma pair_empty_user examples :
  examples !! user_field = Some (PyList []) →
  format_dataset examples = ([], Ok (PyList [])).
Proof.
  intros Hu. unfold pair_format_dataset.
  by rewrite (dict_getitem_Some _ _ _ Hu), !bind_lift_Ok.
Qed.

(** The loop from index [k] on, when the assistant list ends before the user
    list: the rows up to the end of the assistant list are rendered, then
    indexing raises. *)
Lemma pair_loop_short_run examples users assistants n k output_texts :
  batched_pair user_field assistant_field examples users assistants →
  (k + n ≤ length users)%nat →
  (k ≤ length assistants < k + n)%nat →
  for_each (seq k n) (body examples) output_texts =
  ((λ c, ApplyChatTemplate c false)
     <$> zip_with pair_conversation (drop k users) (drop k assistants),
   Raise IndexError).
Proof.
  intros Hex. revert k output_texts.
  induction n as [|n IH]; intros k acc Hku Hka; [lia|]. cbn [for_each seq].
  destruct (lookup_lt_is_Some_2 users k) as [u Hu]; [lia|].
  destruct (assistants !! k) as [a|] eqn:Ha.
  - rewrite (pair_loop_body_step _ _ _ _ _ _ _ _ _ _ Hex Hu Ha), bind_Ok.
    assert (k < length assistants)%nat by by eapply lookup_lt_Some.
    rewrite IH by lia. by rewrite (drop_S _ _ _ Hu), (drop_S _ _ _ Ha).
  - rewrite (drop_S _ _ _ Hu), (drop_ge assistants k) by by apply lookup_ge_None.
    destruct Hex as [Hus Has]. unfold pair_loop_body.
    rewrite (dict_getitem_Some _ _ _ Hus), bind_lift_Ok.
    rewrite (py_getitem_list_Some _ _ _ Hu), bind_lift_Ok.
    rewrite (dict_getitem_Some _ _ _ Has), bind_lift_Ok.
    cbn [py_getitem]. by rewrite Ha.
Qed.

Lemma pair_format_dataset_short_run examples users assistants :
  batched_pair user_field assistant_field examples users assistants →
  (length assistants < length users)%nat →
  format_dataset examples =
  ((λ c, ApplyChatTemplate c false) <$> zip_with pair_conversation users assistants,
   Raise IndexError).
Proof.
  intros Hex Hlen. pose proof Hex as [Hu Ha]. unfold pair_format_dataset.
  rewrite (dict_getitem_Some _ _ _ Hu), !bind_lift_Ok.
  cbn [isinstance_list py_len]. rewrite !bind_lift_Ok. unfold for_range.
  rewrite (pair_loop_short_run _ _ _ _ 0 [] Hex) by lia.
  by rewrite !drop_0.
Qed.
End PairFormatterErrors.

Lemma conversations_missing_field tokenizer messages_field examples :
  examples !! messages_field = None →
  conversations_formatting_function tokenizer messages_field examples
  = ([], Raise (KeyError (PyStr messages_field))).
Proof.
  intros Hfield. unfold conversations_formatting_function, dict_getitem.
  by rewrite Hfield.
Qed.

(** X7: a batch that lacks a field the formatter reads makes it raise
    [KeyError] for that field before the tokenizer is called at all.  For
    the second field of the instruction and source-target formatters this
    holds as soon as the first field is anything but the empty list. *)
Theorem missing_field_raises_KeyError tokenizer examples :
  (∀ messages_field,
      examples !! messages_field = None →
      conversations_formatting_function tokenizer messages_field examples
      = ([], Raise (KeyError (PyStr messages_field))))
  ∧ (examples !! "prompt" = None →
     instructions_formatting_function tokenizer examples
     = ([], Raise (KeyError (PyStr "prompt"))))
  ∧ (∀ prompt,
      examples !! "prompt" = Some prompt → prompt ≠ PyList [] →
      examples !! "completion" = None →
      instructions_formatting_function tokenizer examples
      = ([], Raise (KeyError (PyStr "completion"))))
  ∧ (examples !! "src" = None →
     paddlenlp_instructions_formatting_function tokenizer examples
     = ([], Raise (KeyError (PyStr "src"))))
  ∧ (∀ src,
      examples !! "src" = Some src → src ≠ PyList [] →
      examples !! "tgt" = None →
      paddlenlp_instructions_formatting_function tokenizer examples
      = ([], Raise (KeyError (PyStr "tgt")))).
Proof.
  rewrite instructions_formatting_function_pair,
    paddlenlp_instructions_formatting_function_pair.
  split; [|split; [|split; [|split]]].
  - intros field. apply conversations_missing_field.
  - apply pair_missing_user.
  - intros prompt. apply pair_missing_assistant.
  - apply pair_missing_user.
  - intros src. apply pair_missing_assistant.
Qed.

Lemma missing_field_raises_KeyError_witness :
  conversations_formatting_function Samples.echo "conversations"
    {[ "messages" := Samples.hello ]}
  = ([], Raise (KeyError (PyStr "conversations")))
  ∧ instructions_formatting_function Samples.echo
      {[ "prompt" := PyList [PyStr "a"; PyStr "b"] ]}
    = ([], Raise (KeyError (PyStr "completion")))
  ∧ paddlenlp_instructions_formatting_function Samples.echo
      {[ "tgt" := PyStr "hi" ]}
    = ([], Raise (KeyError (PyStr "src"))).
Proof.
  destruct (missing_field_raises_KeyError Samples.echo {[ "messages" := Samples.hello ]})
    as (Hconv & _).
  destruct (missing_field_raises_KeyError Samples.echo
              {[ "prompt" := PyList [PyStr "a"; PyStr "b"] ]})
    as (_ & _ & Hcompletion & _).
  destruct (missing_field_raises_KeyError Samples.echo {[ "tgt" := PyStr "hi" ]})
    as (_ & _ & _ & Hsrc & _).
  split; [|split].
  - apply Hconv. reflexivity.
  - apply (Hcompletion (PyList [PyStr "a"; PyStr "b"])); [reflexivity | discriminate | reflexivity].
  - apply Hsrc. reflexivity.
Defined.

(** X8: on an empty batch the instruction and source-target formatters
    return the empty list without calling the tokenizer and without looking
    at the second field, which may hold anything or be missing. *)
Theorem empty_batch_ignores_second_field tokenizer examples :
  (examples !! "prompt" = Some (PyList []) →
   instructions_formatting_function tokenizer examples = ([], Ok (PyList [])))
  ∧ (examples !! "src" = Some (PyList []) →
     paddlenlp_instructions_formatting_function tokenizer examples
     = ([], Ok (PyList []))).
Proof.
  rewrite instructions_formatting_function_pair,
    paddlenlp_instructions_formatting_function_pair.
  split; apply pair_empty_user.
Qed.

Lemma empty_batch_ignores_second_field_witness :
  instructions_formatting_function Samples.echo {[ "prompt" := PyList [] ]}
  = ([], Ok (PyList []))
  ∧ paddlenlp_instructions_formatting_function Samples.echo
      {[ "src" := PyList []; "tgt" := PyInt 7 ]}
    = ([], Ok (PyList [])).
Proof.
  split.
  - apply (proj1 (empty_batch_ignores_second_field Samples.echo
                    {[ "prompt" := PyList [] ]})).
    reflexivity.
  - apply (proj2 (empty_batch_ignores_second_field Samples.echo
                    {[ "src" := PyList []; "tgt" := PyInt 7 ]})).
    reflexivity.
Defined.

(** X9: when [completion] (resp. [tgt]) is a shorter list than [prompt]
    (resp. [src]), the formatter renders the rows that have both entries, in
    order, and then raises [IndexError]; the renderings made so far are
    lost. *)
Theorem short_second_field_raises_after_rendering tokenizer examples :
  (∀ prompts completions,
      batched_pair "prompt" "completion" examples prompts completions →
      (length completions < length prompts)%nat →
      instructions_formatting_function tokenizer examples
      = ((λ c, ApplyChatTemplate c false)
           <$> zip_with pair_conversation prompts completions,
         Raise IndexError))
  ∧ (∀ srcs tgts,
      batched_pair "src" "tgt" examples srcs tgts →
      (length tgts < length srcs)%nat →
      paddlenlp_instructions_formatting_function tokenizer examples
      = ((λ c, ApplyChatTemplate c false) <$> zip_with pair_conversation srcs tgts,
         Raise IndexError)).
Proof.
  rewrite instructions_formatting_function_pair,
    paddlenlp_instructions_formatting_function_pair.
  split; intros users assistants; apply pair_format_dataset_short_run.
Qed.

Lemma short_second_field_raises_after_rendering_witness :
  instructions_formatting_function Samples.echo
    {[ "prompt" := PyList [PyStr "a"; PyStr "b"; PyStr "c"];
       "completion" := PyList [PyStr "x"] ]}
  = ([ApplyChatTemplate
        (PyList [message "user" (PyStr "a"); message "assistant" (PyStr "x")]) false],
     Raise IndexError).
Proof.
  apply (proj1 (short_second_field_raises_after_rendering Samples.echo
                  {[ "prompt" := PyList [PyStr "a"; PyStr "b"; PyStr "c"];
                     "completion" := PyList [PyStr "x"] ]})
           [PyStr "a"; PyStr "b"; PyStr "c"] [PyStr "x"]).
  - split; reflexivity.
  - simpl. lia.
Defined.







Lemma prompt_completion_schema_lookup (prompt completion : Feature) key :
  ({[ "prompt" := prompt; "completion" := completion ]} : gmap string Feature) !! key
  = if decide (key = "prompt") then Some prompt
    else if decide (key = "completion") then Some completion else None.
Proof.
  rewrite lookup_insert. case_decide as H1; [subst; by case_decide|].
  case_decide; [congruence|].
  rewrite lookup_singleton. case_decide as H2; [subst; by case_decide|].
  by case_decide; [congruence|].
Qed.

(** X12: the instruction test is exact on the column types too.  A dataset
    with exactly the columns [prompt] and [completion] gets the instruction
    formatter when both are [Value("string", id=None)], and the absent value
    for any other pair of types (another dtype, an id, a nested type). *)
Theorem instruction_match_needs_plain_string_columns tokenizer d prompt completion :
  features d = {[ "prompt" := prompt; "completion" := completion ]} →
  (prompt = Value "string" None ∧ completion = Value "string" None →
   get_formatting_func_from_dataset (PyDataset d) tokenizer
   = ([log_instruction], Ok (Some (instructions_formatting_function tokenizer))))
  ∧ (¬ (prompt = Value "string" None ∧ completion = Value "string" None) →
     get_formatting_func_from_dataset (PyDataset d) tokenizer = ([], Ok None)).
Proof.
  intros Hschema. split.
  - intros [-> ->]. apply matcher_instruction_schema.
    rewrite Hschema. vm_compute. reflexivity.
  - intros Hnot. apply matcher_no_match. unfold matches_template.
    rewrite Hschema, !prompt_completion_schema_lookup.
    repeat (case_decide; [discriminate|]).
    intros [Hm | [Hc | [Hi%FDict_inj | Hp%FDict_inj]]];
      [discriminate Hm | discriminate Hc | |].
    + apply Hnot. split.
      * apply (f_equal (λ m : gmap string Feature, m !! "prompt")) in Hi.
        rewrite prompt_completion_schema_lookup in Hi. by injection Hi.
      * apply (f_equal (λ m : gmap string Feature, m !! "completion")) in Hi.
        rewrite prompt_completion_schema_lookup in Hi. by injection Hi.
    + apply (f_equal (λ m : gmap string Feature, m !! "prompt")) in Hp.
      rewrite prompt_completion_schema_lookup in Hp. discriminate Hp.
Qed.

Lemma instruction_match_needs_plain_string_columns_witness :
  get_formatting_func_from_dataset
    (PyDataset {| features := {[ "prompt" := Value "large_string" None;
                                 "completion" := Value "string" None ]} |})
    Samples.echo
  = ([], Ok None)
  ∧ get_formatting_func_from_dataset
      (PyDataset {| features := {[ "prompt" := Value "string" None;
                                   "completion" := Value "string" (Some "c") ]} |})
      Samples.echo
    = ([], Ok None).
Proof.
  split.
  - apply (proj2 (instruction_match_needs_plain_string_columns Samples.echo
                    {| features := {[ "prompt" := Value "large_string" None;
                                      "completion" := Value "string" None ]} |}
                    (Value "large_string" None) (Value "string" None) eq_refl)).
    intros [H _]. discriminate H.
  - apply (proj2 (instruction_match_needs_plain_string_columns Samples.echo
                    {| features := {[ "prompt" := Value "string" None;
                                      "completion" := Value "string" (Some "c") ]} |}
                    (Value "string" None) (Value "string" (Some "c")) eq_refl)).
    intros [_ H]. discriminate H.
Defined.
